(** * Connect-4 browser client ([static/script.js]): model and properties

    The script keeps four global variables (the game session), talks to the
    game service with two GET requests and paints the board on a canvas.
    The model below follows the script statement by statement:

    - JavaScript strings are sequences of UTF-16 code units;
    - the globals, the two DOM elements the script touches and the list of
      requests handed to the network form the [page] state;
    - statements are commands of a small state-and-exception monad, so that
      a [TypeError] raised in the middle of a handler leaves behind exactly
      the writes made before it. *)

From Stdlib Require Import ZArith QArith Qround List String Ascii Bool Lia Lqa.
From Stdlib Require Import DecimalString.
Import ListNotations.

Local Open Scope Z_scope.

(** ** JavaScript strings *)

Module JsString.

(** A string value is its list of code units (each below 65536). *)
Definition t := list N.

Definition lit (s : string) : t :=
  List.map N_of_ascii (list_ascii_of_string s).

Fixpoint eqb (a b : t) : bool :=
  match a, b with
  | [], [] => true
  | x :: a', y :: b' => N.eqb x y && eqb a' b'
  | _, _ => false
  end.

(** [ToString] of an integral number: its decimal digits, with a leading
    minus sign below zero.  Numbers are kept as exact integers, which is
    what the script's doubles are up to [2^53]; beyond that a double rounds,
    and from [1e21] it is printed in exponent notation.  Statements that
    quote a printed number therefore bound it. *)
Definition of_Z (z : Z) : t := lit (NilZero.string_of_int (Z.to_int z)).

Definition hex_digit (d : N) : N :=
  if (d <? 10)%N then (48 + d)%N else (55 + d)%N.

(** The characters [escape] passes through unchanged:
    [A-Z a-z 0-9 @ * _ + - . /]. *)
Definition unescaped (c : N) : bool :=
  ((65 <=? c) && (c <=? 90) || (97 <=? c) && (c <=? 122)
   || (48 <=? c) && (c <=? 57)
   || (c =? 64) || (c =? 42) || (c =? 95) || (c =? 43)
   || (c =? 45) || (c =? 46) || (c =? 47))%N.

Definition escape_unit (c : N) : t :=
  if unescaped c then [c]
  else if (c <? 256)%N then
    [37%N; hex_digit (c / 16); hex_digit (c mod 16)]
  else
    [37%N; 117%N; hex_digit (c / 4096 mod 16); hex_digit (c / 256 mod 16);
     hex_digit (c / 16 mod 16); hex_digit (c mod 16)].

(** The global function [escape]. *)
Definition escape (s : t) : t := List.flat_map escape_unit s.

End JsString.

Definition jsstring : Type := JsString.t.
Notation "'js' s" := (JsString.lit s) (at level 9, s at level 0, only parsing).

(** ** Values read from a parsed response *)

(** What [JSON.parse] can put in a field, and [undefined] for a field or
    element that is absent.  Numbers are kept integral: the script only
    compares cells with string literals and tests [GameOver] for truth, so
    no claim depends on a fractional part. *)
#[local] Set Warnings "-register-all".

Inductive jsval : Type :=
| JUndefined
| JNull
| JBool (b : bool)
| JNum (n : Z)
| JStr (s : jsstring)
| JArr (elems : list jsval)
| JObj (props : list (jsstring * jsval)).

(** [v === s] against a string literal [s]. *)
Definition strict_eq_str (v : jsval) (s : jsstring) : bool :=
  match v with
  | JStr t => JsString.eqb t s
  | _ => false
  end.

(** [ToBoolean], as applied by the [!] operator. *)
Definition ToBoolean (v : jsval) : bool :=
  match v with
  | JUndefined | JNull => false
  | JBool b => b
  | JNum n => negb (n =? 0)
  | JStr s => negb (JsString.eqb s [])
  | JArr _ | JObj _ => true
  end.

Fixpoint own_property (props : list (jsstring * jsval)) (key : jsstring)
  : option jsval :=
  match props with
  | [] => None
  | (k, v) :: rest => if JsString.eqb k key then Some v else own_property rest key
  end.

Inductive exn : Type := TypeError.

(** An element of an array, [undefined] outside its bounds. *)
Definition array_get (elems : list jsval) (i : Z) : jsval :=
  if i <? 0 then JUndefined
  else match nth_error elems (Z.to_nat i) with
       | Some x => x
       | None => JUndefined
       end.

(** [v[i]] for a number [i]: reading an index of [undefined] or [null]
    throws; an array or a string answers [undefined] outside its bounds,
    and so does any value without such a property. *)
Definition get_index (v : jsval) (i : Z) : exn + jsval :=
  match v with
  | JUndefined | JNull => inl TypeError
  | JArr elems => inr (array_get elems i)
  | JStr s =>
      inr (if i <? 0 then JUndefined
           else match nth_error s (Z.to_nat i) with
                | Some c => JStr [c]
                | None => JUndefined
                end)
  | JObj props =>
      inr (match own_property props (JsString.of_Z i) with
           | Some x => x
           | None => JUndefined
           end)
  | JBool _ | JNum _ => inr JUndefined
  end.

(** The body of a response, after [JSON.parse].  The scalar fields carry the
    types of the service contract; [Board] and [GameOver] are kept untyped
    because the script indexes the first and negates the second whatever
    they are. *)
Record response : Type := {
  GameId : jsstring;
  NumRows : Z;
  NumColumns : Z;
  Board : jsval;
  Prompt : jsstring;
  GameOver : jsval
}.

(** ** The page: globals, document and network *)

(** [var slot_pixels = 60;] *)
Definition slot_pixels : Z := 60.

(** The game state variables. *)
Record globals : Type := {
  game_id : jsstring;
  num_rows : Z;
  num_columns : Z;
  active_game : bool
}.

(** One [arc] sub-path; the angles are kept as multiples of [Math.PI]. *)
Record arc_path : Type := {
  arc_x : Z;
  arc_y : Z;
  arc_radius : Z;
  arc_start_pi : Z;
  arc_end_pi : Z
}.

(** One [fill()]: the current path painted with the current fill style. *)
Record painted_shape : Type := {
  shape_path : list arc_path;
  shape_style : jsstring
}.

(** The [gameBoard] canvas with its 2D context: the bitmap is the sequence
    of shapes painted since it was last cleared. *)
Record canvas : Type := {
  width : Z;
  height : Z;
  path : list arc_path;
  fillStyle : jsstring;
  bitmap : list painted_shape
}.

(** Text that the HTML parser reads as one run of characters and that is
    serialised back unchanged: printable ASCII other than [&], [<], [>]. *)
Definition plain_text (text : jsstring) : bool :=
  forallb (fun c => ((32 <=? c) && (c <=? 126)
                     && negb (c =? 38) && negb (c =? 60) && negb (c =? 62))%N)
          text.

(** What an element holds after an assignment to its [innerHTML]: the
    characters themselves when the text is plain, and otherwise whatever
    nodes the parser makes of the markup. *)
Inductive element_content : Type :=
| PlainText (data : jsstring)
| ParsedMarkup (source : jsstring).

(** [element.innerHTML = text;] *)
Definition assign_innerHTML (text : jsstring) : element_content :=
  if plain_text text then PlainText text else ParsedMarkup text.

(** Reading [element.innerHTML]: plain text reads back as it is; how parsed
    markup is serialised is left open. *)
Definition innerHTML (content : element_content) : option jsstring :=
  match content with
  | PlainText data => Some data
  | ParsedMarkup _ => None
  end.

(** The value a dimension of the canvas takes when a number is assigned to
    it: the number is converted to an unsigned long (modulo [2^32]), and a
    result above 2147483647 is replaced by the default of the attribute. *)
Definition canvas_dimension (default v : Z) : Z :=
  let u := v mod 4294967296 in
  if u <=? 2147483647 then u else default.

Record document : Type := {
  prompt : element_content;
  gameBoard : canvas
}.

(** Which [onreadystatechange] closure a request carries. *)
Inductive callback : Type := newGame_callback | makeMove_callback.

(** A request as handed over by [open] and [send]. *)
Record request : Type := {
  req_method : jsstring;
  req_url : jsstring;
  req_async : bool;
  req_onreadystatechange : callback
}.

Record page : Type := {
  vars : globals;
  doc : document;
  sent : list request
}.

Definition initial_globals : globals :=
  {| game_id := js"0"; num_rows := 0; num_columns := 0; active_game := false |}.

Definition blank_canvas (w h : Z) : canvas :=
  {| width := w; height := h; path := []; fillStyle := js"#000000"; bitmap := [] |}.

Definition initial_page : page :=
  {| vars := initial_globals;
     doc := {| prompt := PlainText []; gameBoard := blank_canvas 300 150 |};
     sent := [] |}.

(** ** Commands: state plus exceptions *)

Module Cmd.

Section Defs.
Variable S : Type.

(** Running a command ends normally with a value or abruptly with an
    exception; either way the writes made so far stay. *)
Inductive outcome (A : Type) : Type :=
| Normal (a : A) (s : S)
| Thrown (e : exn) (s : S).

Definition M (A : Type) : Type := S -> outcome A.

Definition ret {A} (a : A) : M A := fun s => Normal A a s.

Definition bind {A B} (c : M A) (k : A -> M B) : M B :=
  fun s =>
    match c s with
    | Normal _ a s' => k a s'
    | Thrown _ e s' => Thrown B e s'
    end.

Definition throw {A} (e : exn) : M A := fun s => Thrown A e s.

Definition gets {A} (f : S -> A) : M A := fun s => Normal A (f s) s.

Definition modify (f : S -> S) : M unit := fun s => Normal unit tt (f s).

Definition state_of {A} (o : outcome A) : S :=
  match o with
  | Normal _ _ s => s
  | Thrown _ _ s => s
  end.

Definition completes {A} (o : outcome A) : bool :=
  match o with
  | Normal _ _ _ => true
  | Thrown _ _ _ => false
  end.

(** [k] rounds of [body], on [i], [i+1], ... *)
Fixpoint for_from (k : nat) (i : Z) (body : Z -> M unit) : M unit :=
  match k with
  | O => ret tt
  | Datatypes.S k' => bind (body i) (fun _ => for_from k' (i + 1) body)
  end.

(** [for (var i = 0; i < n; i++) body], for an integral bound [n] that
    the body leaves alone: the body runs on 0, 1, ..., n-1, and not at
    all when [n <= 0]. *)
Definition for_lt (n : Z) (body : Z -> M unit) : M unit :=
  for_from (Z.to_nat n) 0 body.

End Defs.

Arguments Normal {S A} a s.
Arguments Thrown {S A} e s.
Arguments ret {S A} a _.
Arguments bind {S A B} c k _.
Arguments throw {S A} e _.
Arguments gets {S A} f _.
Arguments modify {S} f _.
Arguments state_of {S A} o.
Arguments completes {S A} o.
Arguments for_from {S} k i body _.
Arguments for_lt {S} n body _.

End Cmd.

Import Cmd.

Declare Scope cmd_scope.
Delimit Scope cmd_scope with cmd.
Notation "x <- c1 ;; c2" := (bind c1 (fun x => c2))
  (at level 61, c1 at next level, right associativity) : cmd_scope.
Notation "c1 ;; c2" := (bind c1 (fun _ => c2))
  (at level 61, right associativity) : cmd_scope.

(** A statement of the script. *)
Definition stmt (A : Type) : Type := Cmd.M page A.

#[local] Open Scope cmd_scope.

(** *** Primitive statements *)

Definition with_vars (f : globals -> globals) : stmt unit :=
  modify (fun p => {| vars := f (vars p); doc := doc p; sent := sent p |}).

Definition put_canvas (c : canvas) (p : page) : page :=
  {| vars := vars p;
     doc := {| prompt := prompt (doc p); gameBoard := c |};
     sent := sent p |}.

Definition with_canvas (f : canvas -> canvas) : stmt unit :=
  modify (fun p => put_canvas (f (gameBoard (doc p))) p).

(** [document.getElementById("prompt").innerHTML = text;] *)
Definition set_prompt_innerHTML (text : jsstring) : stmt unit :=
  modify (fun p =>
    {| vars := vars p;
       doc := {| prompt := assign_innerHTML text;
                 gameBoard := gameBoard (doc p) |};
       sent := sent p |}).

(** [canvas.width = w;] -- assigning a dimension clears the bitmap and resets
    the context, also when the value does not change.  The default width
    is 300. *)
Definition set_canvas_width (w : Z) : stmt unit :=
  with_canvas (fun c => blank_canvas (canvas_dimension 300 w) (height c)).

(** [canvas.height = h;] -- the default height is 150. *)
Definition set_canvas_height (h : Z) : stmt unit :=
  with_canvas (fun c => blank_canvas (width c) (canvas_dimension 150 h)).

(** [context.beginPath();] *)
Definition beginPath : stmt unit :=
  with_canvas (fun c =>
    {| width := width c; height := height c; path := [];
       fillStyle := fillStyle c; bitmap := bitmap c |}).

(** [context.arc(x, y, radius, startAngle, endAngle);] *)
Definition arc (x y radius start_pi end_pi : Z) : stmt unit :=
  with_canvas (fun c =>
    {| width := width c; height := height c;
       path := path c ++ [ {| arc_x := x; arc_y := y; arc_radius := radius;
                              arc_start_pi := start_pi; arc_end_pi := end_pi |} ];
       fillStyle := fillStyle c; bitmap := bitmap c |}).

(** [context.fillStyle = style;] *)
Definition set_fillStyle (style : jsstring) : stmt unit :=
  with_canvas (fun c =>
    {| width := width c; height := height c; path := path c;
       fillStyle := style; bitmap := bitmap c |}).

(** [context.fill();] *)
Definition fill : stmt unit :=
  with_canvas (fun c =>
    {| width := width c; height := height c; path := path c;
       fillStyle := fillStyle c;
       bitmap := bitmap c ++ [ {| shape_path := path c; shape_style := fillStyle c |} ] |}).

(** [v[i]] as an expression inside a statement. *)
Definition index (v : jsval) (i : Z) : stmt jsval :=
  match get_index v i with
  | inl e => throw e
  | inr x => ret x
  end.

(** [req.open(method, url, true); req.send();] *)
Definition open_send (method url : jsstring) (cb : callback) : stmt unit :=
  modify (fun p =>
    {| vars := vars p; doc := doc p;
       sent := sent p ++ [ {| req_method := method; req_url := url;
                              req_async := true;
                              req_onreadystatechange := cb |} ] |}).

(** ** The script *)

Definition red : jsstring := js"#f06666".
Definition blue : jsstring := js"#6686f0".
Definition grey : jsstring := js"#DCDCDC".

(** The [switch] of [renderBoard]: which style a cell selects. *)
Definition cell_fillStyle (cell : jsval) : jsstring :=
  if strict_eq_str cell (js"X") then red
  else if strict_eq_str cell (js"O") then blue
  else grey.

(** [function renderBoard(resp)].  [slot_pixels / 2] is 30 exactly, so it is
    computed in the integers.  The two loop bounds are globals that the
    loop bodies do not assign; they are read once. *)
Definition renderBoard (resp : response) : stmt unit :=
  set_prompt_innerHTML (Prompt resp) ;;
  num_columns <- gets (fun p => num_columns (vars p)) ;;
  set_canvas_width (num_columns * slot_pixels) ;;
  num_rows <- gets (fun p => num_rows (vars p)) ;;
  set_canvas_height (num_rows * slot_pixels) ;;
  for_lt num_rows (fun row_index =>
    for_lt num_columns (fun col_index =>
      beginPath ;;
      arc (slot_pixels / 2 + col_index * slot_pixels)
          (slot_pixels / 2 + row_index * slot_pixels)
          (slot_pixels / 2 - 2) 0 2 ;;
      cell <- index (Board resp) (num_columns * row_index + col_index) ;;
      set_fillStyle (cell_fillStyle cell) ;;
      fill)).

(** The [onreadystatechange] closure installed by [newGame]. *)
Definition newGame_onreadystatechange (readyState status : Z) (resp : response)
  : stmt unit :=
  if (readyState =? 4) && (status =? 200) then
    with_vars (fun _ =>
      {| game_id := GameId resp;
         num_rows := NumRows resp;
         num_columns := NumColumns resp;
         active_game := true |}) ;;
    renderBoard resp
  else ret tt.

(** [function newGame()]. *)
Definition newGame : stmt unit :=
  game_id <- gets (fun p => game_id (vars p)) ;;
  active_game <- gets (fun p => active_game (vars p)) ;;
  let formatted_params :=
    if negb (JsString.eqb game_id (js"0")) && active_game
    then js"?game_id" ++ JsString.escape game_id
    else js""
  in
  open_send (js"GET") (js"/newgame" ++ formatted_params) newGame_callback.

(** The [onreadystatechange] closure installed by [makeMove]. *)
Definition makeMove_onreadystatechange (readyState status : Z) (resp : response)
  : stmt unit :=
  if (readyState =? 4) && (status =? 200) then
    with_vars (fun g =>
      {| game_id := game_id g;
         num_rows := num_rows g;
         num_columns := num_columns g;
         active_game := negb (ToBoolean (GameOver resp)) |}) ;;
    renderBoard resp
  else ret tt.

(** [function makeMove(col_index)]. *)
Definition makeMove (col_index : Z) : stmt unit :=
  game_id <- gets (fun p => game_id (vars p)) ;;
  let formatted_params :=
    js"?game_id=" ++ JsString.escape game_id
      ++ js"&column_index=" ++ JsString.of_Z col_index
  in
  open_send (js"GET") (js"/makemove" ++ formatted_params) makeMove_callback ;;
  set_prompt_innerHTML
    (js"Player move in column " ++ JsString.of_Z (col_index + 1)
       ++ js". Computer thinking...").

(** [a / b] on numbers is the exact quotient; [Math.floor] rounds down. *)
Definition js_div (a b : Z) : Q := inject_Z a / inject_Z b.
Definition Math_floor (q : Q) : Z := Qfloor q.

(** The click listener of the [gameBoard] canvas; [pageX] comes with the
    event, [offsetLeft] is read from the canvas element. *)
Definition gameBoard_click (pageX offsetLeft : Z) : stmt unit :=
  active_game <- gets (fun p => active_game (vars p)) ;;
  if negb active_game then ret tt
  else
    let col_index := Math_floor (js_div (pageX - offsetLeft) slot_pixels) in
    makeMove col_index.

(** What the browser delivers to the listeners installed on [load]: a click
    on the button, a click on the canvas, or a state change of a request,
    which carries the body as [JSON.parse(req.responseText)] returns it
    (the callbacks read it only on completion with status 200). *)
Inductive event : Type :=
| NewGameButtonClick
| GameBoardClick (pageX offsetLeft : Z)
| ReadyStateChange (cb : callback) (readyState status : Z) (resp : response).

Definition handler (ev : event) : stmt unit :=
  match ev with
  | NewGameButtonClick => newGame
  | GameBoardClick pageX offsetLeft => gameBoard_click pageX offsetLeft
  | ReadyStateChange newGame_callback readyState status resp =>
      newGame_onreadystatechange readyState status resp
  | ReadyStateChange makeMove_callback readyState status resp =>
      makeMove_onreadystatechange readyState status resp
  end.

(** The page after an event: an exception that escapes a listener is only
    reported, the writes made before it remain. *)
Definition dispatch (ev : event) (p : page) : page := state_of (handler ev p).

Fixpoint run (evs : list event) (p : page) : page :=
  match evs with
  | [] => p
  | ev :: rest => run rest (dispatch ev p)
  end.

(** ** Predicates on commands *)

Section CmdPredicates.
Context {S : Type}.

(** [c] keeps [P], whichever way it ends. *)
Definition keeps (P : S -> Prop) {A} (c : Cmd.M S A) : Prop :=
  forall s, P s -> P (state_of (c s)).

(** Two runs that end the same way, in states related by [R]. *)
Inductive same_end (R : S -> S -> Prop) {A} : outcome S A -> outcome S A -> Prop :=
| same_normal a s1 s2 : R s1 s2 -> same_end R (Normal a s1) (Normal a s2)
| same_thrown e s1 s2 : R s1 s2 -> same_end R (Thrown e s1) (Thrown e s2).

(** [c] cannot tell [R]-related states apart. *)
Definition in_step (R : S -> S -> Prop) {A} (c : Cmd.M S A) : Prop :=
  forall s1 s2, R s1 s2 -> same_end R (c s1) (c s2).

End CmdPredicates.

(** ** Vocabulary of the statements below *)

(** The canvas statements and [set_prompt_innerHTML] write the document only. *)
Definition outside_doc (g : globals) (l : list request) (p : page) : Prop :=
  vars p = g /\ sent p = l.

Definition get_request (url : jsstring) (cb : callback) : request :=
  {| req_method := js"GET"; req_url := url; req_async := true;
     req_onreadystatechange := cb |}.

(** The body of the inner loop of [renderBoard]. *)
Definition paint_cell (resp : response) (num_columns row_index col_index : Z)
  : stmt unit :=
  beginPath ;;
  arc (slot_pixels / 2 + col_index * slot_pixels)
      (slot_pixels / 2 + row_index * slot_pixels)
      (slot_pixels / 2 - 2) 0 2 ;;
  cell <- index (Board resp) (num_columns * row_index + col_index) ;;
  set_fillStyle (cell_fillStyle cell) ;;
  fill.

Definition paint_cells (resp : response) (num_rows num_columns : Z) : stmt unit :=
  for_lt num_rows (fun row_index =>
    for_lt num_columns (paint_cell resp num_columns row_index)).

Definition same_doc (p1 p2 : page) : Prop := doc p1 = doc p2.

(** The full circle of the cell at ([row], [col]). *)
Definition circle (row col : Z) : arc_path :=
  {| arc_x := 30 + col * 60; arc_y := 30 + row * 60; arc_radius := 28;
     arc_start_pi := 0; arc_end_pi := 2 |}.

(** The marker of the cell at ([row], [col]) of a board of [nc] columns. *)
Definition marker (cells : list jsval) (nc row col : Z) : painted_shape :=
  {| shape_path := [circle row col];
     shape_style := cell_fillStyle (array_get cells (nc * row + col)) |}.

(** [i], [i+1], ..., [k] numbers in all. *)
Fixpoint upto (k : nat) (i : Z) : list Z :=
  match k with
  | O => []
  | S k' => i :: upto k' (i + 1)
  end.

(** [rows] rows of [c] entries each, row after row, starting at row [i]. *)
Definition grid {A : Type} (f : Z -> Z -> A) (c : nat) (rows : nat) (i : Z) : list A :=
  flat_map (fun row => map (f row) (upto c 0)) (upto rows i).

(** The markers of an [nr] by [nc] board in row-major order. *)
Definition board_markers (cells : list jsval) (nr nc : Z) : list painted_shape :=
  grid (marker cells nc) (Z.to_nat nc) (Z.to_nat nr) 0.

(** [p'] is [p] with the shapes [l] painted on top; the current path and
    fill style may differ. *)
Definition painted_on (p p' : page) (l : list painted_shape) : Prop :=
  vars p' = vars p /\ sent p' = sent p
  /\ prompt (doc p') = prompt (doc p)
  /\ width (gameBoard (doc p')) = width (gameBoard (doc p))
  /\ height (gameBoard (doc p')) = height (gameBoard (doc p))
  /\ bitmap (gameBoard (doc p')) = bitmap (gameBoard (doc p)) ++ l.

(** ** Sample responses and pages *)

Definition board_2x2 : jsval :=
  JArr [JStr js"X"; JStr js"O"; JStr js" "; JStr js"X"].

Definition start_2x2 : response :=
  {| GameId := js"7"; NumRows := 2; NumColumns := 2; Board := board_2x2;
     Prompt := js"Your move"; GameOver := JUndefined |}.

Definition start_1x1 : response :=
  {| GameId := js"8"; NumRows := 1; NumColumns := 1; Board := JArr [JStr js" "];
     Prompt := js"Your move"; GameOver := JUndefined |}.

Definition move_reply : response :=
  {| GameId := js"7"; NumRows := 2; NumColumns := 2; Board := board_2x2;
     Prompt := js"Computer moved"; GameOver := JBool false |}.

Definition final_reply : response :=
  {| GameId := js"7"; NumRows := 2; NumColumns := 2; Board := board_2x2;
     Prompt := js"You win"; GameOver := JBool true |}.


(** The page once the 2x2 game of [start_2x2] has started. *)
Definition playing_2x2 : page :=
  run [NewGameButtonClick; ReadyStateChange newGame_callback 4 200 start_2x2]
      initial_page.

Definition playing_1x1 : page :=
  run [NewGameButtonClick; ReadyStateChange newGame_callback 4 200 start_1x1]
      initial_page.

(** ** Vocabulary for boards of any shape *)

(** Whether [v[i]] can be read at all. *)
Definition indexable (v : jsval) : bool :=
  match v with
  | JUndefined | JNull => false
  | _ => true
  end.

(** What [v[i]] evaluates to when it does not throw. *)
Definition index_value (v : jsval) (i : Z) : jsval :=
  match get_index v i with
  | inr x => x
  | inl _ => JUndefined
  end.

(** The marker painted for the cell ([row], [col]) of a board value [v]. *)
Definition marker_of (v : jsval) (nc row col : Z) : painted_shape :=
  {| shape_path := [circle row col];
     shape_style := cell_fillStyle (index_value v (nc * row + col)) |}.

(** The prompt and the canvas size of a page. *)
Definition shows (text : element_content) (w h : Z) (p : page) : Prop :=
  prompt (doc p) = text
  /\ width (gameBoard (doc p)) = w
  /\ height (gameBoard (doc p)) = h.

(** The canvas has the size of the session's board. *)
Definition canvas_fits_board (p : page) : Prop :=
  width (gameBoard (doc p)) = canvas_dimension 300 (num_columns (vars p) * slot_pixels)
  /\ height (gameBoard (doc p))
     = canvas_dimension 150 (num_rows (vars p) * slot_pixels).

(** A response event that runs the body of its callback. *)
Definition is_success (ev : event) : bool :=
  match ev with
  | ReadyStateChange _ readyState status _ => (readyState =? 4) && (status =? 200)
  | _ => false
  end.

Definition is_newGame_click (ev : event) : bool :=
  match ev with
  | NewGameButtonClick => true
  | _ => false
  end.

(** A decimal digit or the minus sign. *)
Definition digit_or_minus (c : N) : bool :=
  ((48 <=? c) && (c <=? 57) || (c =? 45))%N.

(** The prefix test [s.startsWith(prefix)]. *)
Fixpoint starts_with (prefix s : jsstring) : bool :=
  match prefix, s with
  | [], _ => true
  | x :: prefix', y :: s' => N.eqb x y && starts_with prefix' s'
  | _ :: _, [] => false
  end.

(** An asynchronous GET to one of the two endpoints, with the matching
    callback. *)
Definition known_request (r : request) : bool :=
  JsString.eqb (req_method r) (js"GET") && req_async r
  && match req_onreadystatechange r with
     | newGame_callback => starts_with (js"/newgame") (req_url r)
     | makeMove_callback => starts_with (js"/makemove?game_id=") (req_url r)
     end.

(** ** Pages after a response, and more samples *)

(** The page [renderBoard] leaves when the first cell cannot be read. *)
Definition unpainted (resp : response) (p : page) : page :=
  {| vars := vars p;
     doc := {| prompt := assign_innerHTML (Prompt resp);
               gameBoard :=
                 {| width := canvas_dimension 300 (num_columns (vars p) * 60);
                    height := canvas_dimension 150 (num_rows (vars p) * 60);
                    path := [circle 0 0];
                    fillStyle := js"#000000";
                    bitmap := [] |} |};
     sent := sent p |}.

Definition start_without_board : response :=
  {| GameId := js"9"; NumRows := 6; NumColumns := 7; Board := JNull;
     Prompt := js"Your move"; GameOver := JUndefined |}.

(** The page on which a successful start-game response paints. *)
Definition started (resp : response) (p : page) : page :=
  {| vars := {| game_id := GameId resp; num_rows := NumRows resp;
                num_columns := NumColumns resp; active_game := true |};
     doc := doc p; sent := sent p |}.

(** The page on which a successful move response paints. *)
Definition moved (resp : response) (p : page) : page :=
  {| vars := {| game_id := game_id (vars p); num_rows := num_rows (vars p);
                num_columns := num_columns (vars p);
                active_game := negb (ToBoolean (GameOver resp)) |};
     doc := doc p; sent := sent p |}.

Definition fits_while_active (p : page) : Prop :=
  active_game (vars p) = true -> canvas_fits_board p.

Definition plain_newGame_request : request :=
  get_request (js"/newgame") newGame_callback.

(** The 2x2 game after the response that ends it. *)
Definition finished_2x2 : page :=
  dispatch (ReadyStateChange makeMove_callback 4 200 final_reply) playing_2x2.

Definition idle_events : list event :=
  [GameBoardClick 125 0; NewGameButtonClick;
   ReadyStateChange newGame_callback 4 503 start_2x2; NewGameButtonClick].

Definition string_reply : response :=
  {| GameId := js"7"; NumRows := 2; NumColumns := 2; Board := JStr js"XO X";
     Prompt := js"Computer moved"; GameOver := JBool false |}.

(** ** The window and its listeners *)

(** The window around the page: what was logged and which listeners are
    installed.  Adding [newGame] again to the button is a no-op because it
    is the same function; the listener of the canvas is a new closure each
    time the [load] listener runs. *)
Record window : Type := {
  console : list jsstring;
  newGameButton_listens : bool;
  gameBoard_listeners : nat;
  content : page
}.

Definition initial_window : window :=
  {| console := []; newGameButton_listens := false; gameBoard_listeners := O;
     content := initial_page |}.

Inductive window_event : Type :=
| Load
| PageEvent (ev : event).

(** The listener of [load]. *)
Definition window_onload (w : window) : window :=
  {| console := console w ++ [js"Loaded!"];
     newGameButton_listens := true;
     gameBoard_listeners := S (gameBoard_listeners w);
     content := content w |}.

Definition with_content (w : window) (p : page) : window :=
  {| console := console w; newGameButton_listens := newGameButton_listens w;
     gameBoard_listeners := gameBoard_listeners w; content := p |}.

(** A click runs the listeners installed on its target, in order; a state
    change runs the callback stored in its request. *)
Definition deliver (wev : window_event) (w : window) : window :=
  match wev with
  | Load => window_onload w
  | PageEvent NewGameButtonClick =>
      if newGameButton_listens w
      then with_content w (dispatch NewGameButtonClick (content w))
      else w
  | PageEvent (GameBoardClick pageX offsetLeft) =>
      with_content w
        (Nat.iter (gameBoard_listeners w)
                  (dispatch (GameBoardClick pageX offsetLeft)) (content w))
  | PageEvent ev => with_content w (dispatch ev (content w))
  end.

Fixpoint deliver_all (wevs : list window_event) (w : window) : window :=
  match wevs with
  | [] => w
  | wev :: rest => deliver_all rest (deliver wev w)
  end.

Definition is_click (ev : event) : bool :=
  match ev with
  | NewGameButtonClick | GameBoardClick _ _ => true
  | ReadyStateChange _ _ _ _ => false
  end.

(** * Reasoning about commands *)

Section CmdFacts.
Context {S : Type}.

Lemma keeps_ret (P : S -> Prop) A (a : A) : keeps P (ret a).
Proof. intros s Hs. exact Hs. Qed.

Lemma keeps_throw (P : S -> Prop) A e : keeps P (@throw S A e).
Proof. intros s Hs. exact Hs. Qed.

Lemma keeps_gets (P : S -> Prop) A (f : S -> A) : keeps P (gets f).
Proof. intros s Hs. exact Hs. Qed.

Lemma keeps_modify (P : S -> Prop) f :
  (forall s, P s -> P (f s)) -> keeps P (modify f).
Proof. intros Hf s Hs. apply Hf, Hs. Qed.

Lemma keeps_bind (P : S -> Prop) A B (c : Cmd.M S A) (k : A -> Cmd.M S B) :
  keeps P c -> (forall a, keeps P (k a)) -> keeps P (bind c k).
Proof.
  intros Hc Hk s Hs. unfold bind.
  specialize (Hc s Hs). destruct (c s) as [a s' | e s']; simpl in *.
  - apply Hk, Hc.
  - exact Hc.
Qed.

Lemma keeps_for_from (P : S -> Prop) body :
  (forall i, keeps P (body i)) -> forall k i, keeps P (for_from k i body).
Proof.
  intros Hb k. induction k as [| k IH]; intros i; simpl.
  - apply keeps_ret.
  - apply keeps_bind; [apply Hb | intros _; apply IH].
Qed.

Lemma keeps_for_lt (P : S -> Prop) body n :
  (forall i, keeps P (body i)) -> keeps P (for_lt n body).
Proof. intros Hb. apply keeps_for_from, Hb. Qed.

Lemma in_step_ret (R : S -> S -> Prop) A (a : A) : in_step R (ret a).
Proof. intros s1 s2 H. now constructor. Qed.

Lemma in_step_throw (R : S -> S -> Prop) A e : in_step R (@throw S A e).
Proof. intros s1 s2 H. now constructor. Qed.

Lemma in_step_modify (R : S -> S -> Prop) f :
  (forall s1 s2, R s1 s2 -> R (f s1) (f s2)) -> in_step R (modify f).
Proof. intros Hf s1 s2 H. constructor. now apply Hf. Qed.

Lemma in_step_bind (R : S -> S -> Prop) A B (c : Cmd.M S A) (k : A -> Cmd.M S B) :
  in_step R c -> (forall a, in_step R (k a)) -> in_step R (bind c k).
Proof.
  intros Hc Hk s1 s2 H. unfold bind.
  destruct (Hc s1 s2 H) as [a t1 t2 Ht | e t1 t2 Ht].
  - now apply Hk.
  - now constructor.
Qed.

Lemma in_step_for_from (R : S -> S -> Prop) body :
  (forall i, in_step R (body i)) -> forall k i, in_step R (for_from k i body).
Proof.
  intros Hb k. induction k as [| k IH]; intros i; simpl.
  - apply in_step_ret.
  - apply in_step_bind; [apply Hb | intros _; apply IH].
Qed.

Lemma same_end_state (R : S -> S -> Prop) A (o1 o2 : outcome S A) :
  same_end R o1 o2 -> R (state_of o1) (state_of o2).
Proof. now intros [a s1 s2 H | e s1 s2 H]. Qed.

Lemma same_end_completes (R : S -> S -> Prop) A (o1 o2 : outcome S A) :
  same_end R o1 o2 -> completes o1 = completes o2.
Proof. now intros [a s1 s2 H | e s1 s2 H]. Qed.

End CmdFacts.

Create HintDb keeps discriminated.
#[local] Hint Resolve keeps_ret keeps_throw keeps_gets keeps_bind keeps_for_lt : keeps.
Create HintDb in_step discriminated.
#[local] Hint Resolve in_step_ret in_step_throw in_step_bind in_step_for_from : in_step.

(** ** Frame facts about the primitive statements *)

Lemma keeps_with_canvas g l f : keeps (outside_doc g l) (with_canvas f).
Proof. apply keeps_modify. intros p [Hv Hs]. now split. Qed.

Lemma keeps_set_prompt g l text : keeps (outside_doc g l) (set_prompt_innerHTML text).
Proof. apply keeps_modify. intros p [Hv Hs]. now split. Qed.

Lemma keeps_index g l v i : keeps (outside_doc g l) (index v i).
Proof. unfold index. destruct (get_index v i); auto with keeps. Qed.

#[local] Hint Resolve keeps_with_canvas keeps_set_prompt keeps_index : keeps.

Lemma renderBoard_keeps resp g l : keeps (outside_doc g l) (renderBoard resp).
Proof.
  unfold renderBoard, set_canvas_width, set_canvas_height, beginPath, arc,
    set_fillStyle, fill.
  apply keeps_bind; [auto with keeps | intros _].
  apply keeps_bind; [auto with keeps | intros nc].
  apply keeps_bind; [auto with keeps | intros _].
  apply keeps_bind; [auto with keeps | intros nr].
  apply keeps_bind; [auto with keeps | intros _].
  apply keeps_for_lt; intros row. apply keeps_for_lt; intros col.
  repeat (apply keeps_bind; [auto with keeps | intros ?]).
  auto with keeps.
Qed.

(** [renderBoard] assigns none of the globals and sends nothing. *)
Lemma renderBoard_frame resp p :
  vars (state_of (renderBoard resp p)) = vars p /\
  sent (state_of (renderBoard resp p)) = sent p.
Proof. now apply (renderBoard_keeps resp (vars p) (sent p) p). Qed.

(** * The session transitions *)

Example playing_2x2_session :
  vars playing_2x2 =
  {| game_id := js"7"; num_rows := 2; num_columns := 2; active_game := true |}.
Proof. reflexivity. Qed.

(** C5: a successful start-game response replaces the whole session by the
    values of the response and sets [active_game], whatever the page was
    before (and also when painting the board then fails). *)
Theorem newGame_success_replaces_session :
  forall (resp : response) (p : page),
    vars (dispatch (ReadyStateChange newGame_callback 4 200 resp) p) =
    {| game_id := GameId resp;
       num_rows := NumRows resp;
       num_columns := NumColumns resp;
       active_game := true |}.
Proof.
  intros resp p. unfold dispatch. simpl handler.
  unfold newGame_onreadystatechange. change ((4 =? 4) && (200 =? 200)) with true. cbv iota.
  unfold bind, with_vars, modify. cbv beta iota.
  now rewrite (proj1 (renderBoard_frame resp _)).
Qed.

(** The rest of the session is not touched by a move response. *)
Lemma makeMove_success_session resp p :
  vars (dispatch (ReadyStateChange makeMove_callback 4 200 resp) p) =
  {| game_id := game_id (vars p);
     num_rows := num_rows (vars p);
     num_columns := num_columns (vars p);
     active_game := negb (ToBoolean (GameOver resp)) |}.
Proof.
  unfold dispatch. simpl handler.
  unfold makeMove_onreadystatechange. change ((4 =? 4) && (200 =? 200)) with true. cbv iota.
  unfold bind, with_vars, modify. cbv beta iota.
  now rewrite (proj1 (renderBoard_frame resp _)).
Qed.

(** C6: after a successful move response [active_game] is the negation of
    the response's [GameOver] flag. *)
Theorem makeMove_success_active_game :
  forall (resp : response) (p : page) (gameOver : bool),
    GameOver resp = JBool gameOver ->
    active_game (vars (dispatch (ReadyStateChange makeMove_callback 4 200 resp) p))
    = negb gameOver.
Proof.
  intros resp p b Hb. rewrite makeMove_success_session. simpl. now rewrite Hb.
Qed.

Lemma makeMove_success_active_game_witness :
  active_game (vars (dispatch (ReadyStateChange makeMove_callback 4 200 final_reply)
                              playing_2x2)) = false
  /\ active_game (vars (dispatch (ReadyStateChange makeMove_callback 4 200 move_reply)
                                 playing_2x2)) = true.
Proof.
  split.
  - exact (makeMove_success_active_game final_reply playing_2x2 true eq_refl).
  - exact (makeMove_success_active_game move_reply playing_2x2 false eq_refl).
Defined.

(** C8: a click on the board while no game is active returns at once: no
    request is sent and the session, the prompt and the canvas stay. *)
Theorem gameBoard_click_inactive :
  forall (pageX offsetLeft : Z) (p : page),
    active_game (vars p) = false ->
    handler (GameBoardClick pageX offsetLeft) p = Normal tt p
    /\ dispatch (GameBoardClick pageX offsetLeft) p = p.
Proof.
  intros x L p Hp. unfold dispatch. simpl handler.
  unfold gameBoard_click, bind, gets. rewrite Hp. simpl. now split.
Qed.

Lemma gameBoard_click_inactive_witness :
  handler (GameBoardClick 125 0) initial_page = Normal tt initial_page
  /\ dispatch (GameBoardClick 125 0) initial_page = initial_page.
Proof. exact (gameBoard_click_inactive 125 0 initial_page eq_refl). Defined.

(** C9: a state change that is not the completion of a request with status
    200 runs neither callback's body: nothing at all is written. *)
Theorem failure_response_noop :
  forall (cb : callback) (readyState status : Z) (resp : response) (p : page),
    ~ (readyState = 4 /\ status = 200) ->
    handler (ReadyStateChange cb readyState status resp) p = Normal tt p
    /\ vars (dispatch (ReadyStateChange cb readyState status resp) p) = vars p.
Proof.
  intros cb rs st resp p Hne.
  assert (Hc : (rs =? 4) && (st =? 200) = false).
  { destruct (rs =? 4) eqn:Hr; destruct (st =? 200) eqn:Hs; try reflexivity.
    exfalso. apply Hne. split; [now apply Z.eqb_eq | now apply Z.eqb_eq]. }
  unfold dispatch.
  destruct cb; simpl handler;
    unfold newGame_onreadystatechange, makeMove_onreadystatechange;
    rewrite Hc; now split.
Qed.

Lemma failure_response_noop_witness :
  handler (ReadyStateChange newGame_callback 4 500 start_2x2) playing_2x2
  = Normal tt playing_2x2
  /\ vars (dispatch (ReadyStateChange newGame_callback 4 500 start_2x2) playing_2x2)
     = vars playing_2x2.
Proof.
  apply (failure_response_noop newGame_callback 4 500 start_2x2 playing_2x2).
  intros [_ H]. discriminate H.
Defined.

(** * The requests *)

Example escape_passes_plain : JsString.escape (js"ab-12") = js"ab-12".
Proof. reflexivity. Qed.

Example escape_encodes_reserved :
  JsString.escape (js"a=b c") = js"a%3Db%20c"
  /\ JsString.escape [8364%N] = js"%u20AC".
Proof. split; reflexivity. Qed.

Example of_Z_decimal :
  JsString.of_Z 0 = js"0" /\ JsString.of_Z (-1) = js"-1"
  /\ JsString.of_Z 305 = js"305".
Proof. repeat split; reflexivity. Qed.

(** What [newGame] sends from any page. *)
Lemma newGame_sends p :
  newGame p =
  Normal tt
    {| vars := vars p; doc := doc p;
       sent := sent p ++
         [get_request
            (js"/newgame" ++
               (if negb (JsString.eqb (game_id (vars p)) (js"0")) && active_game (vars p)
                then js"?game_id" ++ JsString.escape (game_id (vars p))
                else js""))
            newGame_callback] |}.
Proof. reflexivity. Qed.

(** What [makeMove] sends and shows. *)
Lemma makeMove_sends col_index p :
  makeMove col_index p =
  Normal tt
    {| vars := vars p;
       doc := {| prompt :=
                   assign_innerHTML
                     (js"Player move in column " ++ JsString.of_Z (col_index + 1)
                        ++ js". Computer thinking...");
                 gameBoard := gameBoard (doc p) |};
       sent := sent p ++
         [get_request
            (js"/makemove?game_id=" ++ JsString.escape (game_id (vars p))
               ++ js"&column_index=" ++ JsString.of_Z col_index)
            makeMove_callback] |}.
Proof. reflexivity. Qed.

(** [escape] never yields a string that begins with an equals sign. *)
Lemma escape_head_not_equals s rest : JsString.escape s <> 61%N :: rest.
Proof.
  destruct s as [| c s]; simpl; [discriminate |].
  unfold JsString.escape_unit.
  destruct (JsString.unescaped c) eqn:Hu.
  - simpl. intros H. injection H as Hc _. subst c. discriminate Hu.
  - destruct (c <? 256)%N; simpl; discriminate.
Qed.

(** During an active game the request of [newGame] is
    [/newgame?game_id] directly followed by the escaped identifier: it never
    has the form [/newgame?game_id=...]. *)
Lemma newGame_url_never_has_equals p value :
  JsString.eqb (game_id (vars p)) (js"0") = false ->
  active_game (vars p) = true ->
  sent (dispatch NewGameButtonClick p) =
    sent p ++ [get_request (js"/newgame?game_id" ++ JsString.escape (game_id (vars p)))
                           newGame_callback]
  /\ js"/newgame?game_id" ++ JsString.escape (game_id (vars p))
     <> js"/newgame?game_id=" ++ value.
Proof.
  intros Hid Hact. split.
  - unfold dispatch. simpl handler. rewrite newGame_sends. simpl state_of.
    cbn [sent]. now rewrite Hid, Hact.
  - intros H. apply (app_inv_head (js"/newgame?game_id")) in H.
    exact (escape_head_not_equals _ _ H).
Qed.

(** C1, evaluated: with game "7" active, the New Game button sends
    [GET /newgame?game_id7], not [GET /newgame?game_id=7]; [makeMove] on
    the same page does write the equals sign. *)
Theorem newGame_active_request_url :
  sent (dispatch NewGameButtonClick playing_2x2) =
    sent playing_2x2 ++ [get_request (js"/newgame?game_id7") newGame_callback]
  /\ js"/newgame?game_id7" <> js"/newgame?game_id=7"
  /\ sent (state_of (makeMove 2 playing_2x2)) =
       sent playing_2x2 ++
         [get_request (js"/makemove?game_id=7&column_index=2") makeMove_callback].
Proof. repeat split. discriminate. Qed.

(** ** The board click *)

Lemma Math_floor_js_div a b :
  0 < b -> Math_floor (js_div a b) = a / b.
Proof.
  intros Hb. unfold Math_floor, js_div.
  destruct b as [| b | b]; try lia.
  unfold Qdiv, Qinv, Qmult, inject_Z, Qfloor. simpl Qnum. simpl Qden.
  cbv iota. simpl Qnum. simpl Qden.
  now rewrite Z.mul_1_r, Pos.mul_1_l.
Qed.



(** * The renderer *)

(** [renderBoard] first overwrites the prompt and clears the canvas at its
    new size, then paints the cells. *)
Lemma renderBoard_unfold resp p :
  renderBoard resp p =
  paint_cells resp (num_rows (vars p)) (num_columns (vars p))
    {| vars := vars p;
       doc := {| prompt := assign_innerHTML (Prompt resp);
                 gameBoard :=
                   blank_canvas
                     (canvas_dimension 300 (num_columns (vars p) * slot_pixels))
                     (canvas_dimension 150 (num_rows (vars p) * slot_pixels)) |};
       sent := sent p |}.
Proof. reflexivity. Qed.

Lemma half_slot_exact : 2 * (slot_pixels / 2) = slot_pixels.
Proof. reflexivity. Qed.

(** ** Determinism *)

Lemma in_step_with_canvas f : in_step same_doc (with_canvas f).
Proof.
  apply in_step_modify. unfold same_doc, put_canvas. intros p1 p2 H.
  simpl. now rewrite H.
Qed.

Lemma in_step_index (R : page -> page -> Prop) v i : in_step R (index v i).
Proof. unfold index. destruct (get_index v i); auto with in_step. Qed.

#[local] Hint Resolve in_step_with_canvas in_step_index : in_step.

Lemma in_step_paint_cell resp nc row col :
  in_step same_doc (paint_cell resp nc row col).
Proof.
  unfold paint_cell, beginPath, arc, set_fillStyle, fill.
  repeat (apply in_step_bind; [auto with in_step | intros ?]).
  auto with in_step.
Qed.

Lemma in_step_paint_cells resp nr nc : in_step same_doc (paint_cells resp nr nc).
Proof.
  unfold paint_cells, for_lt.
  apply in_step_for_from. intros row.
  apply in_step_for_from. intros col.
  apply in_step_paint_cell.
Qed.

(** With equal board dimensions in the session, two calls on the same
    response end the same way with the same document. *)
Lemma renderBoard_in_step resp p1 p2 :
  num_rows (vars p1) = num_rows (vars p2) ->
  num_columns (vars p1) = num_columns (vars p2) ->
  same_end same_doc (renderBoard resp p1) (renderBoard resp p2).
Proof.
  intros Hr Hc. rewrite !renderBoard_unfold, Hr, Hc.
  apply in_step_paint_cells. reflexivity.
Qed.

Lemma page_ext (p q : page) :
  vars p = vars q -> doc p = doc q -> sent p = sent q -> p = q.
Proof. destruct p, q; simpl; intros; now subst. Qed.

(** C2 as stated fails: [renderBoard] takes the board size from the globals,
    so the same response is painted on a 120x120 canvas in the 2x2 session
    and on a 60x60 canvas in the 1x1 session. *)
Lemma renderBoard_not_function_of_response_alone :
  doc (state_of (renderBoard move_reply playing_2x2))
  <> doc (state_of (renderBoard move_reply playing_1x1)).
Proof.
  intros H. apply (f_equal (fun d => width (gameBoard d))) in H.
  vm_compute in H. discriminate H.
Qed.

(** C2, amended: the document [renderBoard] leaves (prompt, canvas size,
    painted markers) and the way it ends are a function of the response
    and of the session's [num_rows] and [num_columns], not of the document
    or of anything else before the call; and a second call on the same
    response changes nothing. *)
Theorem renderBoard_deterministic_idempotent :
  forall (resp : response) (p1 p2 : page),
    num_rows (vars p1) = num_rows (vars p2) ->
    num_columns (vars p1) = num_columns (vars p2) ->
    doc (state_of (renderBoard resp p1)) = doc (state_of (renderBoard resp p2))
    /\ completes (renderBoard resp p1) = completes (renderBoard resp p2)
    /\ state_of (renderBoard resp (state_of (renderBoard resp p1)))
       = state_of (renderBoard resp p1).
Proof.
  intros resp p1 p2 Hr Hc.
  pose proof (renderBoard_in_step resp p1 p2 Hr Hc) as H12.
  split; [exact (same_end_state _ _ _ _ H12) |].
  split; [exact (same_end_completes _ _ _ _ H12) |].
  destruct (renderBoard_frame resp p1) as [Hv Hs].
  set (q := state_of (renderBoard resp p1)) in *.
  destruct (renderBoard_frame resp q) as [Hv' Hs'].
  apply page_ext.
  - now rewrite Hv'.
  - apply (same_end_state same_doc).
    apply renderBoard_in_step; now rewrite Hv.
  - now rewrite Hs'.
Qed.

Lemma renderBoard_deterministic_idempotent_witness :
  doc (state_of (renderBoard move_reply playing_2x2))
  = doc (state_of (renderBoard move_reply
                     (dispatch (GameBoardClick 125 0) playing_2x2)))
  /\ completes (renderBoard move_reply playing_2x2)
     = completes (renderBoard move_reply
                    (dispatch (GameBoardClick 125 0) playing_2x2))
  /\ state_of (renderBoard move_reply (state_of (renderBoard move_reply playing_2x2)))
     = state_of (renderBoard move_reply playing_2x2).
Proof.
  exact (renderBoard_deterministic_idempotent move_reply playing_2x2
           (dispatch (GameBoardClick 125 0) playing_2x2) eq_refl eq_refl).
Defined.

(** ** What is painted *)

Lemma painted_on_refl p : painted_on p p [].
Proof. unfold painted_on. now rewrite app_nil_r. Qed.

Lemma painted_on_trans p p' p'' l l' :
  painted_on p p' l -> painted_on p' p'' l' -> painted_on p p'' (l ++ l').
Proof.
  unfold painted_on.
  intros (Hv & Hs & Hp & Hw & Hh & Hb) (Hv' & Hs' & Hp' & Hw' & Hh' & Hb').
  repeat split; try congruence.
  now rewrite Hb', Hb, app_assoc.
Qed.

Section ArrayBoard.
Variable resp : response.
Variable cells : list jsval.
Hypothesis Board_is_array : Board resp = JArr cells.

Lemma paint_cell_paints nc row col p :
  exists p', paint_cell resp nc row col p = Normal tt p'
             /\ painted_on p p' [marker cells nc row col].
Proof.
  unfold paint_cell, index. rewrite Board_is_array. simpl get_index.
  eexists. split; [reflexivity |].
  unfold painted_on. simpl. repeat split.
Qed.

Lemma paint_row_paints nc row k : forall i p,
  exists p', for_from k i (paint_cell resp nc row) p = Normal tt p'
             /\ painted_on p p' (map (marker cells nc row) (upto k i)).
Proof.
  induction k as [| k IH]; intros i p; simpl.
  - exists p. split; [reflexivity | apply painted_on_refl].
  - destruct (paint_cell_paints nc row i p) as (p1 & Hrun1 & Hp1).
    destruct (IH (i + 1) p1) as (p2 & Hrun2 & Hp2).
    exists p2. split.
    + unfold bind. now rewrite Hrun1.
    + exact (painted_on_trans _ _ _ _ _ Hp1 Hp2).
Qed.

Lemma paint_rows_paints nc k : forall i p,
  exists p',
    for_from k i (fun row => for_lt nc (paint_cell resp nc row)) p = Normal tt p'
    /\ painted_on p p'
         (flat_map (fun row => map (marker cells nc row) (upto (Z.to_nat nc) 0))
                   (upto k i)).
Proof.
  induction k as [| k IH]; intros i p; simpl.
  - exists p. split; [reflexivity | apply painted_on_refl].
  - destruct (paint_row_paints nc i (Z.to_nat nc) 0 p) as (p1 & Hrun1 & Hp1).
    destruct (IH (i + 1) p1) as (p2 & Hrun2 & Hp2).
    exists p2. split.
    + unfold bind, for_lt at 1. now rewrite Hrun1.
    + exact (painted_on_trans _ _ _ _ _ Hp1 Hp2).
Qed.

(** On a response whose [Board] is an array, [renderBoard] runs to its
    end; it leaves the prompt of the response and a canvas sized for
    [num_columns] by [num_rows] slots, holding the markers of the board,
    row by row. *)
Lemma renderBoard_paints p :
  exists p',
    renderBoard resp p = Normal tt p'
    /\ vars p' = vars p /\ sent p' = sent p
    /\ prompt (doc p') = assign_innerHTML (Prompt resp)
    /\ width (gameBoard (doc p'))
       = canvas_dimension 300 (num_columns (vars p) * slot_pixels)
    /\ height (gameBoard (doc p'))
       = canvas_dimension 150 (num_rows (vars p) * slot_pixels)
    /\ bitmap (gameBoard (doc p'))
       = board_markers cells (num_rows (vars p)) (num_columns (vars p)).
Proof.
  rewrite renderBoard_unfold. unfold paint_cells, for_lt at 1.
  match goal with
  | |- exists p', for_from ?k ?i ?body ?q = _ /\ _ =>
      destruct (paint_rows_paints (num_columns (vars p)) k i q)
        as (p' & Hrun & (Hv & Hs & Hp & Hw & Hh & Hb))
  end.
  exists p'. split; [exact Hrun |].
  cbn [vars doc sent prompt gameBoard width height bitmap blank_canvas] in *.
  repeat split; assumption.
Qed.

End ArrayBoard.

(** *** Positions in the row-major sequence *)

Lemma upto_length k : forall i, List.length (upto k i) = k.
Proof. induction k as [| k IH]; intros i; simpl; [reflexivity | now rewrite IH]. Qed.

Lemma upto_nth k : forall i j,
  (j < k)%nat -> nth_error (upto k i) j = Some (i + Z.of_nat j).
Proof.
  induction k as [| k IH]; intros i j Hj; [lia |].
  destruct j as [| j]; simpl.
  - f_equal. lia.
  - rewrite IH by lia. f_equal. lia.
Qed.

Section Grid.
Variable A : Type.
Variable f : Z -> Z -> A.
Variable c : nat.

Lemma grid_length rows : forall i, List.length (grid f c rows i) = (rows * c)%nat.
Proof.
  unfold grid. induction rows as [| rows IH]; intros i; simpl; [reflexivity |].
  now rewrite length_app, length_map, upto_length, IH.
Qed.

Lemma grid_nth rows : forall i row col,
  (row < rows)%nat -> (col < c)%nat ->
  nth_error (grid f c rows i) (row * c + col)
  = Some (f (i + Z.of_nat row) (Z.of_nat col)).
Proof.
  unfold grid. induction rows as [| rows IH]; intros i row col Hrow Hcol; [lia |].
  simpl flat_map. destruct row as [| row].
  - rewrite nth_error_app1 by (rewrite length_map, upto_length; simpl; lia).
    simpl Nat.add. rewrite nth_error_map, upto_nth by exact Hcol.
    simpl. now rewrite Z.add_0_r.
  - rewrite nth_error_app2 by (rewrite length_map, upto_length; simpl; lia).
    rewrite length_map, upto_length.
    replace (S row * c + col - c)%nat with (row * c + col)%nat by (simpl; lia).
    rewrite IH by lia. do 2 f_equal. lia.
Qed.

End Grid.

Lemma board_markers_length cells nr nc :
  0 <= nr -> 0 <= nc ->
  Z.of_nat (List.length (board_markers cells nr nc)) = nr * nc.
Proof.
  intros Hr Hc.
  unfold board_markers.
  rewrite grid_length.
  rewrite Nat2Z.inj_mul, !Z2Nat.id by assumption. reflexivity.
Qed.

Lemma board_markers_nth cells nr nc row col :
  0 <= row < nr -> 0 <= col < nc ->
  nth_error (board_markers cells nr nc) (Z.to_nat (row * nc + col))
  = Some (marker cells nc row col).
Proof.
  intros Hr Hc.
  unfold board_markers.
  replace (Z.to_nat (row * nc + col))
    with (Z.to_nat row * Z.to_nat nc + Z.to_nat col)%nat by nia.
  rewrite grid_nth by lia.
  rewrite !Z2Nat.id by lia. reflexivity.
Qed.

(** *** The colour of a cell *)

Lemma JsString_eqb_eq a : forall b, JsString.eqb a b = true <-> a = b.
Proof.
  induction a as [| x a IH]; intros [| y b]; simpl; split; intros H;
    try reflexivity; try discriminate.
  - apply andb_true_iff in H as [Hx Hab].
    apply N.eqb_eq in Hx. apply IH in Hab. now subst.
  - injection H as -> ->. rewrite N.eqb_refl. simpl. now apply IH.
Qed.

Lemma strict_eq_str_true v s : strict_eq_str v s = true <-> v = JStr s.
Proof.
  destruct v; simpl; split; intros H; try discriminate.
  - apply JsString_eqb_eq in H. now subst.
  - injection H as ->. now apply JsString_eqb_eq.
Qed.

Lemma cell_fillStyle_X : cell_fillStyle (JStr js"X") = red.
Proof. reflexivity. Qed.

Lemma cell_fillStyle_O : cell_fillStyle (JStr js"O") = blue.
Proof. reflexivity. Qed.

Lemma cell_fillStyle_other cell :
  cell <> JStr js"X" -> cell <> JStr js"O" -> cell_fillStyle cell = grey.
Proof.
  intros HX HO. unfold cell_fillStyle.
  destruct (strict_eq_str cell js"X") eqn:EX.
  - now apply strict_eq_str_true in EX.
  - destruct (strict_eq_str cell js"O") eqn:EO; [| reflexivity].
    now apply strict_eq_str_true in EO.
Qed.


(** What the renderer reads at an index that is not negative. *)
Lemma array_get_nth cells i :
  0 <= i ->
  array_get cells i
  = match nth_error cells (Z.to_nat i) with
    | Some v => v
    | None => JUndefined
    end.
Proof.
  intros Hi. unfold array_get.
  destruct (i <? 0) eqn:Hneg; [apply Z.ltb_lt in Hneg; lia | reflexivity].
Qed.

(** The style selected for the element of the array at index [i]. *)
Lemma cell_fillStyle_of_element cells i :
  0 <= i ->
  match nth_error cells (Z.to_nat i) with
  | Some v =>
      (v = JStr js"X" -> cell_fillStyle (array_get cells i) = js"#f06666")
      /\ (v = JStr js"O" -> cell_fillStyle (array_get cells i) = js"#6686f0")
      /\ (v <> JStr js"X" -> v <> JStr js"O" ->
          cell_fillStyle (array_get cells i) = js"#DCDCDC")
  | None => cell_fillStyle (array_get cells i) = js"#DCDCDC"
  end.
Proof.
  intros Hi. rewrite (array_get_nth cells i Hi).
  destruct (nth_error cells (Z.to_nat i)) as [v |]; [| reflexivity].
  split; [intros ->; reflexivity |].
  split; [intros ->; reflexivity |].
  apply cell_fillStyle_other.
Qed.

(** The shape painted for one cell of an array board. *)
Lemma renderBoard_array_cell resp cells p row col :
  Board resp = JArr cells ->
  0 <= row < num_rows (vars p) ->
  0 <= col < num_columns (vars p) ->
  exists p',
    renderBoard resp p = Normal tt p'
    /\ nth_error (bitmap (gameBoard (doc p')))
                 (Z.to_nat (row * num_columns (vars p) + col))
       = Some (marker cells (num_columns (vars p)) row col).
Proof.
  intros HB Hrow Hcol.
  destruct (renderBoard_paints resp cells HB p)
    as (p' & Hrun & _ & _ & _ & _ & _ & Hbits).
  exists p'. split; [exact Hrun |].
  rewrite Hbits. now apply board_markers_nth.
Qed.

(** C3: for [r >= 0] rows and [c >= 0] columns [renderBoard] paints exactly
    [r * c] markers; the one painted in position [row * c + col] is the
    full circle of radius 28 centred in the cell ([row], [col]), and its
    colour is the one of the element of [Board] at index [row * c + col]:
    red for ['X'], blue for ['O'], grey for anything else and for a
    missing element. *)
Theorem renderBoard_draws_markers_row_major :
  forall (resp : response) (cells : list jsval) (p : page),
    Board resp = JArr cells ->
    0 <= num_rows (vars p) ->
    0 <= num_columns (vars p) ->
    exists p',
      renderBoard resp p = Normal tt p'
      /\ Z.of_nat (List.length (bitmap (gameBoard (doc p'))))
         = num_rows (vars p) * num_columns (vars p)
      /\ forall row col,
           0 <= row < num_rows (vars p) ->
           0 <= col < num_columns (vars p) ->
           exists style,
             nth_error (bitmap (gameBoard (doc p')))
                       (Z.to_nat (row * num_columns (vars p) + col))
             = Some {| shape_path :=
                         [ {| arc_x := 30 + col * 60; arc_y := 30 + row * 60;
                              arc_radius := 28;
                              arc_start_pi := 0; arc_end_pi := 2 |} ];
                       shape_style := style |}
             /\ match nth_error cells
                        (Z.to_nat (row * num_columns (vars p) + col)) with
                | Some v =>
                    (v = JStr js"X" -> style = js"#f06666")
                    /\ (v = JStr js"O" -> style = js"#6686f0")
                    /\ (v <> JStr js"X" -> v <> JStr js"O" ->
                        style = js"#DCDCDC")
                | None => style = js"#DCDCDC"
                end.
Proof.
  intros resp cells p HB Hr Hc.
  destruct (renderBoard_paints resp cells HB p)
    as (p' & Hrun & _ & _ & _ & _ & _ & Hbits).
  exists p'. split; [exact Hrun |]. rewrite Hbits. split.
  - now apply board_markers_length.
  - intros row col Hrow Hcol.
    exists (cell_fillStyle
              (array_get cells (row * num_columns (vars p) + col))).
    split.
    + rewrite board_markers_nth by assumption.
      unfold marker, circle.
      now rewrite (Z.mul_comm row (num_columns (vars p))).
    + apply cell_fillStyle_of_element. nia.
Qed.

Lemma renderBoard_draws_markers_row_major_witness :
  exists p',
    renderBoard move_reply playing_2x2 = Normal tt p'
    /\ Z.of_nat (List.length (bitmap (gameBoard (doc p')))) = 4
    /\ nth_error (bitmap (gameBoard (doc p'))) 0%nat
       = Some {| shape_path :=
                   [ {| arc_x := 30; arc_y := 30; arc_radius := 28;
                        arc_start_pi := 0; arc_end_pi := 2 |} ];
                 shape_style := js"#f06666" |}
    /\ nth_error (bitmap (gameBoard (doc p'))) 1%nat
       = Some {| shape_path :=
                   [ {| arc_x := 90; arc_y := 30; arc_radius := 28;
                        arc_start_pi := 0; arc_end_pi := 2 |} ];
                 shape_style := js"#6686f0" |}
    /\ nth_error (bitmap (gameBoard (doc p'))) 2%nat
       = Some {| shape_path :=
                   [ {| arc_x := 30; arc_y := 90; arc_radius := 28;
                        arc_start_pi := 0; arc_end_pi := 2 |} ];
                 shape_style := js"#DCDCDC" |}.
Proof.
  destruct (renderBoard_draws_markers_row_major move_reply
              [JStr js"X"; JStr js"O"; JStr js" "; JStr js"X"] playing_2x2
              eq_refl ltac:(simpl; lia) ltac:(simpl; lia))
    as (p' & Hrun & Hlen & Hcells).
  exists p'. split; [exact Hrun |]. split; [exact Hlen |].
  destruct (Hcells 0 0 ltac:(simpl; lia) ltac:(simpl; lia))
    as (s0 & Hn0 & HX & _ & _).
  destruct (Hcells 0 1 ltac:(simpl; lia) ltac:(simpl; lia))
    as (s1 & Hn1 & _ & HO & _).
  destruct (Hcells 1 0 ltac:(simpl; lia) ltac:(simpl; lia))
    as (s2 & Hn2 & _ & _ & Hother).
  rewrite (HX eq_refl) in Hn0. rewrite (HO eq_refl) in Hn1.
  rewrite (Hother ltac:(discriminate) ltac:(discriminate)) in Hn2.
  split; [exact Hn0 |]. split; [exact Hn1 | exact Hn2].
Defined.

(** C4: the fill style of a marker is decided by the content of its cell
    and by nothing else: when the element of [Board] for the cell is
    ['X'] the marker is red, when it is ['O'] the marker is blue, for any
    other value it is grey; two cells with the same content, in whatever
    boards, sessions and positions, get the same style. *)
Theorem marker_colour_by_cell_content :
  forall (resp : response) (cells : list jsval) (p : page) (row col : Z)
         (v : jsval),
    Board resp = JArr cells ->
    0 <= row < num_rows (vars p) ->
    0 <= col < num_columns (vars p) ->
    nth_error cells (Z.to_nat (num_columns (vars p) * row + col)) = Some v ->
    exists p' shape,
      renderBoard resp p = Normal tt p'
      /\ nth_error (bitmap (gameBoard (doc p')))
                   (Z.to_nat (row * num_columns (vars p) + col)) = Some shape
      /\ (v = JStr js"X" -> shape_style shape = js"#f06666")
      /\ (v = JStr js"O" -> shape_style shape = js"#6686f0")
      /\ (v <> JStr js"X" -> v <> JStr js"O" ->
          shape_style shape = js"#DCDCDC")
      /\ forall (resp2 : response) (cells2 : list jsval) (p2 : page)
                (row2 col2 : Z),
           Board resp2 = JArr cells2 ->
           0 <= row2 < num_rows (vars p2) ->
           0 <= col2 < num_columns (vars p2) ->
           nth_error cells2 (Z.to_nat (num_columns (vars p2) * row2 + col2))
           = Some v ->
           exists shape2,
             nth_error (bitmap (gameBoard (doc (state_of (renderBoard resp2 p2)))))
                       (Z.to_nat (row2 * num_columns (vars p2) + col2))
             = Some shape2
             /\ shape_style shape2 = shape_style shape.
Proof.
  intros resp cells p row col v HB Hrow Hcol Hv.
  destruct (renderBoard_array_cell resp cells p row col HB Hrow Hcol)
    as (p' & Hrun & Hnth).
  exists p', (marker cells (num_columns (vars p)) row col).
  split; [exact Hrun |]. split; [exact Hnth |].
  assert (Hstyle : forall cs nc r c,
             0 <= nc * r + c ->
             nth_error cs (Z.to_nat (nc * r + c)) = Some v ->
             shape_style (marker cs nc r c) = cell_fillStyle v).
  { intros cs nc r c Hi Hc. unfold marker. cbn [shape_style].
    now rewrite (array_get_nth cs _ Hi), Hc. }
  rewrite (Hstyle cells (num_columns (vars p)) row col ltac:(nia) Hv).
  split; [intros ->; reflexivity |].
  split; [intros ->; reflexivity |].
  split; [apply cell_fillStyle_other |].
  intros resp2 cells2 p2 row2 col2 HB2 Hrow2 Hcol2 Hv2.
  destruct (renderBoard_array_cell resp2 cells2 p2 row2 col2 HB2 Hrow2 Hcol2)
    as (p2' & Hrun2 & Hnth2).
  exists (marker cells2 (num_columns (vars p2)) row2 col2).
  rewrite Hrun2. split; [exact Hnth2 |].
  now rewrite (Hstyle cells2 (num_columns (vars p2)) row2 col2 ltac:(nia) Hv2).
Qed.

Lemma marker_colour_by_cell_content_witness :
  exists p' red_shape blue_shape grey_shape,
    renderBoard move_reply playing_2x2 = Normal tt p'
    /\ nth_error (bitmap (gameBoard (doc p'))) 0%nat = Some red_shape
    /\ shape_style red_shape = js"#f06666"
    /\ nth_error (bitmap (gameBoard (doc p'))) 1%nat = Some blue_shape
    /\ shape_style blue_shape = js"#6686f0"
    /\ nth_error (bitmap (gameBoard (doc p'))) 2%nat = Some grey_shape
    /\ shape_style grey_shape = js"#DCDCDC".
Proof.
  destruct (marker_colour_by_cell_content move_reply
              [JStr js"X"; JStr js"O"; JStr js" "; JStr js"X"] playing_2x2 0 0
              (JStr js"X") eq_refl ltac:(simpl; lia) ltac:(simpl; lia) eq_refl)
    as (p0 & s0 & Hrun0 & Hn0 & HX & _).
  destruct (marker_colour_by_cell_content move_reply
              [JStr js"X"; JStr js"O"; JStr js" "; JStr js"X"] playing_2x2 0 1
              (JStr js"O") eq_refl ltac:(simpl; lia) ltac:(simpl; lia) eq_refl)
    as (p1 & s1 & Hrun1 & Hn1 & _ & HO & _).
  destruct (marker_colour_by_cell_content move_reply
              [JStr js"X"; JStr js"O"; JStr js" "; JStr js"X"] playing_2x2 1 0
              (JStr js" ") eq_refl ltac:(simpl; lia) ltac:(simpl; lia) eq_refl)
    as (p2 & s2 & Hrun2 & Hn2 & _ & _ & Hother & _).
  assert (E1 : p1 = p0) by congruence.
  assert (E2 : p2 = p0) by congruence.
  subst p1 p2.
  exists p0, s0, s1, s2.
  split; [exact Hrun0 |].
  split; [exact Hn0 |]. split; [exact (HX eq_refl) |].
  split; [exact Hn1 |]. split; [exact (HO eq_refl) |].
  split; [exact Hn2 |]. apply Hother; discriminate.
Defined.



(** When [Board] is missing the first cell already faults: the prompt and
    the canvas size are written, nothing is painted. *)
Example renderBoard_without_board :
  let resp := {| GameId := js"7"; NumRows := 2; NumColumns := 2;
                 Board := JUndefined; Prompt := js"Your move";
                 GameOver := JUndefined |} in
  exists p',
    renderBoard resp playing_2x2 = Thrown TypeError p'
    /\ innerHTML (prompt (doc p')) = Some js"Your move"
    /\ width (gameBoard (doc p')) = 120
    /\ bitmap (gameBoard (doc p')) = [].
Proof. simpl. eexists. split; [reflexivity |]. repeat split. Qed.


(** * Further properties of the renderer *)

(** ** Prompt and canvas size *)

Lemma keeps_shows_with_canvas text w h f :
  (forall c, width (f c) = width c /\ height (f c) = height c) ->
  keeps (shows text w h) (with_canvas f).
Proof.
  intros Hf. apply keeps_modify. unfold shows.
  intros p (Hp & Hw & Hh). simpl.
  destruct (Hf (gameBoard (doc p))) as [Hw' Hh']. repeat split; congruence.
Qed.

Lemma keeps_shows_index text w h v i : keeps (shows text w h) (index v i).
Proof. unfold index. destruct (get_index v i); auto with keeps. Qed.

Lemma keeps_shows_paint_cells text w h resp nr nc :
  keeps (shows text w h) (paint_cells resp nr nc).
Proof.
  unfold paint_cells.
  apply keeps_for_lt; intros row. apply keeps_for_lt; intros col.
  unfold paint_cell, beginPath, arc, set_fillStyle, fill.
  repeat (apply keeps_bind;
          [ first [ apply keeps_shows_index
                  | apply keeps_shows_with_canvas; intros c; now split ]
          | intros ? ]).
  apply keeps_shows_with_canvas; intros c; now split.
Qed.

Lemma renderBoard_shows resp p :
  shows (assign_innerHTML (Prompt resp))
        (canvas_dimension 300 (num_columns (vars p) * 60))
        (canvas_dimension 150 (num_rows (vars p) * 60))
        (state_of (renderBoard resp p)).
Proof.
  rewrite renderBoard_unfold.
  apply keeps_shows_paint_cells. unfold shows. repeat split.
Qed.

(** A dimension within the range of the attribute is stored as it is. *)
Lemma canvas_dimension_in_range default v :
  0 <= v <= 2147483647 -> canvas_dimension default v = v.
Proof.
  intros Hv. unfold canvas_dimension.
  rewrite Z.mod_small by lia.
  destruct (v <=? 2147483647) eqn:Hle; [reflexivity |].
  apply Z.leb_gt in Hle. lia.
Qed.

Example canvas_dimension_out_of_range :
  canvas_dimension 300 (40000000 * 60) = 300
  /\ canvas_dimension 300 (-1 * 60) = 300
  /\ canvas_dimension 150 (-1 * 60) = 150
  /\ canvas_dimension 300 (7 * 60) = 420.
Proof. repeat split; reflexivity. Qed.

Example assign_innerHTML_markup :
  innerHTML (assign_innerHTML (js"Your move")) = Some js"Your move"
  /\ innerHTML (assign_innerHTML (js"You & computer <3")) = None.
Proof. split; reflexivity. Qed.

(** Plain text reads back as it was assigned. *)
Lemma innerHTML_plain text :
  plain_text text = true -> innerHTML (assign_innerHTML text) = Some text.
Proof. intros H. unfold assign_innerHTML. now rewrite H. Qed.



(** ** Boards of any shape *)

Lemma get_index_indexable v i :
  indexable v = true -> get_index v i = inr (index_value v i).
Proof.
  unfold index_value. destruct v; simpl; intros H; try discriminate; reflexivity.
Qed.

Lemma get_index_not_indexable v i :
  indexable v = false -> get_index v i = inl TypeError.
Proof. destruct v; simpl; intros H; try discriminate; reflexivity. Qed.

Section IndexableBoard.
Variable resp : response.
Hypothesis Board_indexable : indexable (Board resp) = true.

Lemma paint_cell_indexable nc row col p :
  exists p', paint_cell resp nc row col p = Normal tt p'
             /\ painted_on p p' [marker_of (Board resp) nc row col].
Proof.
  unfold paint_cell, index.
  rewrite (get_index_indexable _ _ Board_indexable).
  eexists. split; [reflexivity |].
  unfold painted_on. simpl. repeat split.
Qed.

Lemma paint_row_indexable nc row k : forall i p,
  exists p', for_from k i (paint_cell resp nc row) p = Normal tt p'
             /\ painted_on p p' (map (marker_of (Board resp) nc row) (upto k i)).
Proof.
  induction k as [| k IH]; intros i p; simpl.
  - exists p. split; [reflexivity | apply painted_on_refl].
  - destruct (paint_cell_indexable nc row i p) as (p1 & Hrun1 & Hp1).
    destruct (IH (i + 1) p1) as (p2 & Hrun2 & Hp2).
    exists p2. split.
    + unfold bind. now rewrite Hrun1.
    + exact (painted_on_trans _ _ _ _ _ Hp1 Hp2).
Qed.

Lemma paint_rows_indexable nc k : forall i p,
  exists p',
    for_from k i (fun row => for_lt nc (paint_cell resp nc row)) p = Normal tt p'
    /\ painted_on p p' (grid (marker_of (Board resp) nc) (Z.to_nat nc) k i).
Proof.
  unfold grid.
  induction k as [| k IH]; intros i p; simpl.
  - exists p. split; [reflexivity | apply painted_on_refl].
  - destruct (paint_row_indexable nc i (Z.to_nat nc) 0 p) as (p1 & Hrun1 & Hp1).
    destruct (IH (i + 1) p1) as (p2 & Hrun2 & Hp2).
    exists p2. split.
    + unfold bind, for_lt at 1. now rewrite Hrun1.
    + exact (painted_on_trans _ _ _ _ _ Hp1 Hp2).
Qed.

(** Whatever indexable value [Board] is, all the cells are painted, each
    from what indexing the value gives. *)
Lemma renderBoard_paints_indexable p :
  exists p',
    renderBoard resp p = Normal tt p'
    /\ vars p' = vars p /\ sent p' = sent p
    /\ bitmap (gameBoard (doc p'))
       = grid (marker_of (Board resp) (num_columns (vars p)))
              (Z.to_nat (num_columns (vars p))) (Z.to_nat (num_rows (vars p))) 0.
Proof.
  rewrite renderBoard_unfold. unfold paint_cells, for_lt at 1.
  match goal with
  | |- exists p', for_from ?k ?i ?body ?q = _ /\ _ =>
      destruct (paint_rows_indexable (num_columns (vars p)) k i q)
        as (p' & Hrun & (Hv & Hs & Hp & Hw & Hh & Hb))
  end.
  exists p'. split; [exact Hrun |]. simpl in *. repeat split; assumption.
Qed.

End IndexableBoard.

(** With no column the rows are empty loops, whatever [Board] is. *)
Lemma paint_rows_no_column resp nc k : forall i p,
  Z.to_nat nc = O ->
  for_from k i (fun row => for_lt nc (paint_cell resp nc row)) p = Normal tt p.
Proof.
  induction k as [| k IH]; intros i p Hnc; simpl; [reflexivity |].
  unfold bind, for_lt at 1. rewrite Hnc. simpl. now apply IH.
Qed.

Lemma renderBoard_not_indexable resp p :
  indexable (Board resp) = false ->
  0 < num_rows (vars p) -> 0 < num_columns (vars p) ->
  renderBoard resp p = Thrown TypeError (unpainted resp p).
Proof.
  intros HB Hr Hc. rewrite renderBoard_unfold. unfold paint_cells, for_lt.
  destruct (Z.to_nat (num_rows (vars p))) as [| kr] eqn:Er; [lia |].
  destruct (Z.to_nat (num_columns (vars p))) as [| kc] eqn:Ec; [lia |].
  simpl for_from. unfold paint_cell, index.
  rewrite (get_index_not_indexable _ _ HB). reflexivity.
Qed.

(** X2: [renderBoard] faults exactly when [Board] is [undefined] or [null]
    and the session's board has at least one cell; it then throws a
    [TypeError] at the first cell: the path holds the circle of that cell,
    nothing is painted, and the globals and the requests are untouched. *)
Theorem renderBoard_faults_iff :
  forall (resp : response) (p : page),
    (completes (renderBoard resp p) = false
     <-> indexable (Board resp) = false
         /\ 0 < num_rows (vars p) /\ 0 < num_columns (vars p))
    /\ (completes (renderBoard resp p) = false ->
        exists p',
          renderBoard resp p = Thrown TypeError p'
          /\ vars p' = vars p /\ sent p' = sent p
          /\ bitmap (gameBoard (doc p')) = []
          /\ path (gameBoard (doc p'))
             = [ {| arc_x := 30; arc_y := 30; arc_radius := 28;
                    arc_start_pi := 0; arc_end_pi := 2 |} ]).
Proof.
  intros resp p.
  assert (Hiff : completes (renderBoard resp p) = false
                 <-> indexable (Board resp) = false
                     /\ 0 < num_rows (vars p) /\ 0 < num_columns (vars p)).
  { split.
    - intros Hfault.
      destruct (indexable (Board resp)) eqn:HB.
      + destruct (renderBoard_paints_indexable resp HB p) as (p' & Hrun & _).
        rewrite Hrun in Hfault. discriminate Hfault.
      + split; [reflexivity |].
        destruct (Z_lt_le_dec 0 (num_columns (vars p))) as [Hc | Hc].
        * destruct (Z_lt_le_dec 0 (num_rows (vars p))) as [Hr | Hr];
            [now split |].
          rewrite renderBoard_unfold in Hfault. unfold paint_cells, for_lt in Hfault.
          replace (Z.to_nat (num_rows (vars p))) with O in Hfault by lia.
          discriminate Hfault.
        * rewrite renderBoard_unfold in Hfault.
          unfold paint_cells, for_lt at 1 in Hfault.
          rewrite paint_rows_no_column in Hfault by lia.
          discriminate Hfault.
    - intros (HB & Hr & Hc).
      now rewrite (renderBoard_not_indexable resp p HB Hr Hc). }
  split; [exact Hiff |].
  intros Hfault. apply Hiff in Hfault as (HB & Hr & Hc).
  exists (unpainted resp p).
  split; [now apply renderBoard_not_indexable |]. repeat split.
Qed.

(** During an active game the listener calls [makeMove] with the floor of
    [(pageX - offsetLeft) / 60]. *)
Lemma gameBoard_click_active pageX offsetLeft p :
  active_game (vars p) = true ->
  handler (GameBoardClick pageX offsetLeft) p
  = makeMove ((pageX - offsetLeft) / 60) p.
Proof.
  intros Hact. simpl handler. unfold gameBoard_click. unfold bind at 1.
  unfold gets. rewrite Hact. simpl negb. cbv iota.
  rewrite Math_floor_js_div by reflexivity. reflexivity.
Qed.

(** X3: a successful start-game response without a board still starts the
    game: the session is the one of the response and is active, nothing is
    painted, and a click on the board of that page asks for a move in the
    new game. *)
Theorem newGame_success_without_board :
  forall (resp : response) (p : page),
    indexable (Board resp) = false ->
    0 < NumRows resp -> 0 < NumColumns resp ->
    let p' := dispatch (ReadyStateChange newGame_callback 4 200 resp) p in
    vars p' = {| game_id := GameId resp; num_rows := NumRows resp;
                 num_columns := NumColumns resp; active_game := true |}
    /\ bitmap (gameBoard (doc p')) = []
    /\ forall pageX offsetLeft,
         Z.abs (pageX - offsetLeft) < 9007199254740992 ->
         sent (dispatch (GameBoardClick pageX offsetLeft) p')
         = sent p ++ [get_request
                        (js"/makemove?game_id=" ++ JsString.escape (GameId resp)
                           ++ js"&column_index="
                           ++ JsString.of_Z ((pageX - offsetLeft) / 60))
                        makeMove_callback].
Proof.
  intros resp p HB Hr Hc p'.
  assert (Hp' : p' = unpainted resp (started resp p)).
  { unfold p', dispatch. simpl handler. unfold newGame_onreadystatechange.
    change ((4 =? 4) && (200 =? 200)) with true. cbv iota.
    unfold bind, with_vars, modify. cbv beta iota.
    now rewrite renderBoard_not_indexable by (simpl; assumption). }
  rewrite Hp'. do 2 (split; [reflexivity |]).
  intros x L _. unfold dispatch.
  rewrite gameBoard_click_active by reflexivity.
  rewrite makeMove_sends. reflexivity.
Qed.

Lemma newGame_success_without_board_witness :
  active_game
    (vars (dispatch (ReadyStateChange newGame_callback 4 200 start_without_board)
                    initial_page)) = true
  /\ bitmap
       (gameBoard
          (doc (dispatch (ReadyStateChange newGame_callback 4 200 start_without_board)
                         initial_page))) = []
  /\ sent (dispatch (GameBoardClick 125 0)
             (dispatch (ReadyStateChange newGame_callback 4 200 start_without_board)
                       initial_page))
     = [get_request (js"/makemove?game_id=9&column_index=2") makeMove_callback].
Proof.
  pose proof (newGame_success_without_board start_without_board initial_page
                eq_refl ltac:(simpl; lia) ltac:(simpl; lia)) as H.
  cbv zeta in H. destruct H as (Hv & Hb & Hclick).
  split; [now rewrite Hv |]. split; [exact Hb |].
  exact (Hclick 125 0 ltac:(simpl; lia)).
Defined.

(** ** Geometry of the painted board *)

(** What is on the canvas after [renderBoard], however it ended. *)
Lemma renderBoard_bitmap resp p :
  bitmap (gameBoard (doc (state_of (renderBoard resp p))))
  = if indexable (Board resp)
    then grid (marker_of (Board resp) (num_columns (vars p)))
              (Z.to_nat (num_columns (vars p))) (Z.to_nat (num_rows (vars p))) 0
    else [].
Proof.
  destruct (indexable (Board resp)) eqn:HB.
  - destruct (renderBoard_paints_indexable resp HB p) as (p' & Hrun & _ & _ & Hb).
    now rewrite Hrun.
  - destruct (Z_lt_le_dec 0 (num_columns (vars p))) as [Hc | Hc].
    + destruct (Z_lt_le_dec 0 (num_rows (vars p))) as [Hr | Hr].
      * now rewrite renderBoard_not_indexable.
      * rewrite renderBoard_unfold. unfold paint_cells, for_lt.
        replace (Z.to_nat (num_rows (vars p))) with O by lia. reflexivity.
    + rewrite renderBoard_unfold. unfold paint_cells, for_lt at 1.
      rewrite paint_rows_no_column by lia. reflexivity.
Qed.

Lemma grid_nth_inv A (f : Z -> Z -> A) c rows i x :
  nth_error (grid f c rows 0) i = Some x ->
  exists row col,
    (row < rows)%nat /\ (col < c)%nat /\ i = (row * c + col)%nat
    /\ x = f (Z.of_nat row) (Z.of_nat col).
Proof.
  intros Hx.
  assert (Hi : (i < rows * c)%nat).
  { rewrite <- (grid_length A f c rows 0). apply nth_error_Some. now rewrite Hx. }
  assert (Hc : c <> O) by (intros ->; lia).
  exists (i / c)%nat, (i mod c)%nat.
  assert (Hrow : (i / c < rows)%nat)
    by (apply Nat.Div0.div_lt_upper_bound; lia).
  assert (Hcol : (i mod c < c)%nat) by (now apply Nat.mod_upper_bound).
  assert (Hsplit : i = (i / c * c + i mod c)%nat)
    by (rewrite (Nat.mul_comm (i / c)); now apply Nat.div_mod).
  repeat split; try assumption.
  rewrite Hsplit in Hx at 1.
  rewrite (grid_nth A f c rows 0 _ _ Hrow Hcol) in Hx.
  injection Hx as Hx. rewrite <- Hx. reflexivity.
Qed.

(** Every painted shape is the marker of one cell of the session's board. *)
Lemma renderBoard_shape_inv resp p i s :
  nth_error (bitmap (gameBoard (doc (state_of (renderBoard resp p))))) i = Some s ->
  exists row col,
    0 <= row < num_rows (vars p) /\ 0 <= col < num_columns (vars p)
    /\ Z.of_nat i = row * num_columns (vars p) + col
    /\ s = marker_of (Board resp) (num_columns (vars p)) row col.
Proof.
  rewrite renderBoard_bitmap.
  destruct (indexable (Board resp)).
  - intros Hs. apply grid_nth_inv in Hs as (row & col & Hrow & Hcol & Hi & Hs).
    exists (Z.of_nat row), (Z.of_nat col).
    split; [lia |]. split; [lia |]. split; [| exact Hs].
    rewrite Hi, Nat2Z.inj_add, Nat2Z.inj_mul. f_equal. f_equal. lia.
  - destruct i; discriminate.
Qed.

(** X4: the markers are full circles of radius 28 and two markers never
    touch: their centres are further apart than the sum of their radii;
    when [num_columns * 60] and [num_rows * 60] do not exceed the largest
    canvas dimension, every marker lies strictly inside the canvas. *)
Theorem markers_inside_canvas_and_apart :
  forall (resp : response) (p : page) (i j : nat) (s t : painted_shape),
    let board := gameBoard (doc (state_of (renderBoard resp p))) in
    nth_error (bitmap board) i = Some s ->
    nth_error (bitmap board) j = Some t ->
    exists a b,
      shape_path s = [a] /\ shape_path t = [b]
      /\ arc_radius a = 28 /\ arc_start_pi a = 0 /\ arc_end_pi a = 2
      /\ (i <> j ->
          (arc_radius a + arc_radius b) ^ 2
          < (arc_x a - arc_x b) ^ 2 + (arc_y a - arc_y b) ^ 2)
      /\ (num_columns (vars p) * 60 <= 2147483647 ->
          0 < arc_x a - arc_radius a /\ arc_x a + arc_radius a < width board)
      /\ (num_rows (vars p) * 60 <= 2147483647 ->
          0 < arc_y a - arc_radius a /\ arc_y a + arc_radius a < height board).
Proof.
  intros resp p i j s t board Hs Ht.
  destruct (renderBoard_shows resp p) as (_ & Hw & Hh).
  fold board in Hw, Hh.
  apply renderBoard_shape_inv in Hs as (row & col & Hrow & Hcol & Hi & ->).
  apply renderBoard_shape_inv in Ht as (row' & col' & Hrow' & Hcol' & Hj & ->).
  exists (circle row col), (circle row' col').
  unfold marker_of, circle.
  cbn [shape_path arc_x arc_y arc_radius arc_start_pi arc_end_pi].
  do 5 (split; [reflexivity |]).
  split; [| split].
  - intros Hij.
    assert (Hne : row <> row' \/ col <> col').
    { destruct (Z.eq_dec row row') as [-> | Hn]; [| now left].
      right. intros ->. apply Hij. lia. }
    assert (1 <= (col - col') ^ 2 + (row - row') ^ 2) by nia.
    nia.
  - intros Hmax. rewrite Hw, canvas_dimension_in_range by lia. lia.
  - intros Hmax. rewrite Hh, canvas_dimension_in_range by lia. lia.
Qed.

Lemma markers_inside_canvas_and_apart_witness :
  exists a b,
    arc_x a = 30 /\ arc_y a = 30 /\ arc_x b = 90 /\ arc_y b = 30
    /\ (arc_radius a + arc_radius b) ^ 2
       < (arc_x a - arc_x b) ^ 2 + (arc_y a - arc_y b) ^ 2
    /\ arc_x a + arc_radius a
       < width (gameBoard (doc (state_of (renderBoard move_reply playing_2x2)))).
Proof.
  destruct (markers_inside_canvas_and_apart move_reply playing_2x2 0%nat 1%nat
              (marker_of board_2x2 2 0 0) (marker_of board_2x2 2 0 1)
              eq_refl eq_refl)
    as (a & b & Ha & Hb & _ & _ & _ & Hapart & Hin & _).
  exists a, b. simpl in Ha, Hb.
  injection Ha as <-. injection Hb as <-.
  do 4 (split; [reflexivity |]).
  split; [apply Hapart; discriminate |].
  apply Hin. simpl. lia.
Defined.

Lemma grid_nth_Z A (f : Z -> Z -> A) nr nc row col :
  0 <= row < nr -> 0 <= col < nc ->
  nth_error (grid f (Z.to_nat nc) (Z.to_nat nr) 0) (Z.to_nat (row * nc + col))
  = Some (f row col).
Proof.
  intros Hr Hc.
  replace (Z.to_nat (row * nc + col))
    with (Z.to_nat row * Z.to_nat nc + Z.to_nat col)%nat by nia.
  rewrite grid_nth by lia.
  rewrite !Z2Nat.id by lia. reflexivity.
Qed.

(** X5: once the board is painted, a click whose horizontal position falls
    on the marker of the cell ([row], [col]) asks for a move in column
    [col]. *)
Theorem click_on_marker_sends_its_column :
  forall (resp : response) (p : page) (row col pageX offsetLeft : Z),
    indexable (Board resp) = true ->
    active_game (vars p) = true ->
    0 <= row < num_rows (vars p) ->
    0 <= col < num_columns (vars p) ->
    (pageX - offsetLeft - arc_x (circle row col)) ^ 2
      <= arc_radius (circle row col) ^ 2 ->
    let p' := state_of (renderBoard resp p) in
    nth_error (bitmap (gameBoard (doc p')))
              (Z.to_nat (row * num_columns (vars p) + col))
    = Some {| shape_path := [circle row col];
              shape_style :=
                cell_fillStyle
                  (index_value (Board resp) (num_columns (vars p) * row + col)) |}
    /\ handler (GameBoardClick pageX offsetLeft) p' = makeMove col p'.
Proof.
  intros resp p row col x L HB Hact Hrow Hcol Hhit p'. split.
  - unfold p'. rewrite renderBoard_bitmap, HB. now apply grid_nth_Z.
  - assert (Hact' : active_game (vars p') = true)
      by (unfold p'; now rewrite (proj1 (renderBoard_frame resp p))).
    rewrite (gameBoard_click_active x L p' Hact'). f_equal.
    unfold circle in Hhit. cbn [arc_x arc_radius] in Hhit.
    symmetry. apply (Z.div_unique (x - L) 60 col (x - L - 60 * col)); nia.
Qed.

Lemma click_on_marker_sends_its_column_witness :
  handler (GameBoardClick 110 10) (state_of (renderBoard move_reply playing_2x2))
  = makeMove 1 (state_of (renderBoard move_reply playing_2x2)).
Proof.
  exact (proj2 (click_on_marker_sends_its_column move_reply playing_2x2 0 1 110 10
                  eq_refl eq_refl ltac:(simpl; lia) ltac:(simpl; lia)
                  ltac:(simpl; lia))).
Defined.

(** * Further properties of the session *)

Lemma handler_newGame_success readyState status resp p :
  (readyState =? 4) && (status =? 200) = true ->
  handler (ReadyStateChange newGame_callback readyState status resp) p
  = renderBoard resp (started resp p).
Proof.
  intros H. simpl handler. unfold newGame_onreadystatechange. now rewrite H.
Qed.

Lemma handler_makeMove_success readyState status resp p :
  (readyState =? 4) && (status =? 200) = true ->
  handler (ReadyStateChange makeMove_callback readyState status resp) p
  = renderBoard resp (moved resp p).
Proof.
  intros H. simpl handler. unfold makeMove_onreadystatechange. now rewrite H.
Qed.

Lemma handler_not_success cb readyState status resp p :
  (readyState =? 4) && (status =? 200) = false ->
  handler (ReadyStateChange cb readyState status resp) p = Normal tt p.
Proof.
  intros H. destruct cb; simpl handler;
    unfold newGame_onreadystatechange, makeMove_onreadystatechange;
    now rewrite H.
Qed.

Lemma gameBoard_click_idle pageX offsetLeft p :
  active_game (vars p) = false ->
  handler (GameBoardClick pageX offsetLeft) p = Normal tt p.
Proof.
  intros Hact. simpl handler. unfold gameBoard_click, bind, gets.
  now rewrite Hact.
Qed.

Lemma renderBoard_fits resp p :
  canvas_fits_board (state_of (renderBoard resp p)).
Proof.
  destruct (renderBoard_shows resp p) as (_ & Hw & Hh).
  destruct (renderBoard_frame resp p) as [Hv _].
  unfold canvas_fits_board, slot_pixels. now rewrite Hv, Hw, Hh.
Qed.

(** ** The canvas follows the session *)

Lemma dispatch_fits_while_active ev p :
  fits_while_active p -> fits_while_active (dispatch ev p).
Proof.
  unfold fits_while_active, dispatch. intros Hp.
  destruct ev as [| x L | cb rs st resp].
  - simpl handler. rewrite newGame_sends. exact Hp.
  - destruct (active_game (vars p)) eqn:Hact.
    + rewrite gameBoard_click_active, makeMove_sends by exact Hact.
      intros _. exact (Hp eq_refl).
    + rewrite gameBoard_click_idle by exact Hact. simpl. congruence.
  - destruct ((rs =? 4) && (st =? 200)) eqn:Hok.
    + intros _. destruct cb.
      * rewrite handler_newGame_success by exact Hok. apply renderBoard_fits.
      * rewrite handler_makeMove_success by exact Hok. apply renderBoard_fits.
    + rewrite handler_not_success by exact Hok. exact Hp.
Qed.

Lemma run_fits_while_active evs : forall p,
  fits_while_active p -> fits_while_active (run evs p).
Proof.
  induction evs as [| ev evs IH]; intros p Hp; simpl; [exact Hp |].
  apply IH. now apply dispatch_fits_while_active.
Qed.

(** X6: whatever has happened since the page was opened, while a game is
    active and [num_columns * 60] and [num_rows * 60] are within the
    range of a canvas dimension, the canvas is exactly [num_columns * 60]
    wide and [num_rows * 60] high. *)
Theorem canvas_fits_board_while_active :
  forall (evs : list event),
    active_game (vars (run evs initial_page)) = true ->
    0 <= num_columns (vars (run evs initial_page)) * 60 <= 2147483647 ->
    0 <= num_rows (vars (run evs initial_page)) * 60 <= 2147483647 ->
    width (gameBoard (doc (run evs initial_page)))
    = num_columns (vars (run evs initial_page)) * 60
    /\ height (gameBoard (doc (run evs initial_page)))
       = num_rows (vars (run evs initial_page)) * 60.
Proof.
  intros evs Hact Hc Hr.
  destruct (run_fits_while_active evs initial_page
              ltac:(intros H; discriminate H) Hact) as [Hw Hh].
  unfold slot_pixels in Hw, Hh.
  now rewrite Hw, Hh, !canvas_dimension_in_range by assumption.
Qed.

Lemma canvas_fits_board_while_active_witness :
  width (gameBoard (doc playing_2x2)) = 2 * 60
  /\ height (gameBoard (doc playing_2x2)) = 2 * 60.
Proof.
  exact (canvas_fits_board_while_active
           [NewGameButtonClick; ReadyStateChange newGame_callback 4 200 start_2x2]
           eq_refl ltac:(simpl; lia) ltac:(simpl; lia)).
Defined.

(** X7: the listener checks no bound: during an active game every click is
    turned into a move request, and, the canvas being [num_columns * 60]
    wide, the column it names is a column of the board exactly when the
    click falls within the width of the canvas. *)
Theorem click_column_in_range_iff_inside_canvas :
  forall (evs : list event) (pageX offsetLeft : Z),
    active_game (vars (run evs initial_page)) = true ->
    0 <= num_columns (vars (run evs initial_page)) * 60 <= 2147483647 ->
    Z.abs (pageX - offsetLeft) < 9007199254740992 ->
    exists col_index,
      handler (GameBoardClick pageX offsetLeft) (run evs initial_page)
      = makeMove col_index (run evs initial_page)
      /\ (0 <= col_index < num_columns (vars (run evs initial_page))
          <-> 0 <= pageX - offsetLeft
                < width (gameBoard (doc (run evs initial_page)))).
Proof.
  intros evs x L Hact Hc _.
  destruct (run_fits_while_active evs initial_page
              ltac:(intros H; discriminate H) Hact) as [Hw _].
  unfold slot_pixels in Hw.
  rewrite canvas_dimension_in_range in Hw by exact Hc.
  exists ((x - L) / 60). split; [now apply gameBoard_click_active |].
  rewrite Hw.
  pose proof (Z.mul_div_le (x - L) 60 ltac:(lia)).
  pose proof (Z.mul_succ_div_gt (x - L) 60 ltac:(lia)).
  lia.
Qed.

Lemma click_column_in_range_iff_inside_canvas_witness :
  exists col_index,
    handler (GameBoardClick 5 10) playing_2x2 = makeMove col_index playing_2x2
    /\ ~ 0 <= col_index < 2.
Proof.
  destruct (click_column_in_range_iff_inside_canvas
              [NewGameButtonClick; ReadyStateChange newGame_callback 4 200 start_2x2]
              5 10 eq_refl ltac:(simpl; lia) ltac:(simpl; lia))
    as (col_index & Hcall & Hiff).
  exists col_index. split; [exact Hcall |].
  intros Hin. apply Hiff in Hin. simpl in Hin. lia.
Defined.

(** ** What a successful response leaves *)

(** X8: a successful start-game response overwrites whatever was there: the
    session, the prompt and the canvas depend on the response only, and
    the requests sent so far are kept. *)
Theorem newGame_success_overwrites_page :
  forall (resp : response) (p1 p2 : page),
    vars (dispatch (ReadyStateChange newGame_callback 4 200 resp) p1)
    = vars (dispatch (ReadyStateChange newGame_callback 4 200 resp) p2)
    /\ doc (dispatch (ReadyStateChange newGame_callback 4 200 resp) p1)
       = doc (dispatch (ReadyStateChange newGame_callback 4 200 resp) p2)
    /\ sent (dispatch (ReadyStateChange newGame_callback 4 200 resp) p1)
       = sent p1.
Proof.
  intros resp p1 p2. unfold dispatch.
  rewrite !handler_newGame_success by reflexivity.
  destruct (renderBoard_frame resp (started resp p1)) as [Hv1 Hs1].
  destruct (renderBoard_frame resp (started resp p2)) as [Hv2 Hs2].
  split; [now rewrite Hv1, Hv2 |]. split; [| exact Hs1].
  apply (same_end_state same_doc). now apply renderBoard_in_step.
Qed.



(** * Further properties of the requests *)

(** ** Printed numbers *)

Lemma lit_digits d :
  Forall (fun u => digit_or_minus u = true)
         (JsString.lit (NilEmpty.string_of_uint d)).
Proof.
  induction d; simpl; constructor; try reflexivity; assumption.
Qed.

Lemma of_Z_digits z :
  Forall (fun u => digit_or_minus u = true) (JsString.of_Z z).
Proof.
  unfold JsString.of_Z, NilZero.string_of_int.
  destruct (Z.to_int z) as [d | d].
  - unfold NilZero.string_of_uint. destruct d; try apply lit_digits.
    repeat constructor.
  - change (JsString.lit (String "-" (NilZero.string_of_uint d)))
      with (45%N :: JsString.lit (NilZero.string_of_uint d)).
    constructor; [reflexivity |].
    unfold NilZero.string_of_uint. destruct d; try apply lit_digits.
    repeat constructor.
Qed.

(** A printed integer is plain text. *)
Lemma of_Z_plain z : plain_text (JsString.of_Z z) = true.
Proof.
  unfold plain_text. apply forallb_forall. intros c Hc.
  pose proof (proj1 (Forall_forall _ _) (of_Z_digits z) c Hc) as Hd.
  unfold digit_or_minus in Hd.
  apply orb_true_iff in Hd as [Hd | Hd].
  - apply andb_true_iff in Hd as [H1 H2].
    apply N.leb_le in H1. apply N.leb_le in H2.
    repeat (apply andb_true_iff; split);
      first [ apply N.leb_le; lia | apply negb_true_iff, N.eqb_neq; lia ].
  - apply N.eqb_eq in Hd. now subst c.
Qed.

Lemma plain_text_app a b :
  plain_text (a ++ b) = plain_text a && plain_text b.
Proof. unfold plain_text. apply forallb_app. Qed.

(** ** Without a successful response *)

Lemma no_success_run evs : forall p,
  active_game (vars p) = false ->
  forallb (fun ev => negb (is_success ev)) evs = true ->
  run evs p =
  {| vars := vars p; doc := doc p;
     sent := sent p ++ repeat plain_newGame_request
                              (List.length (filter is_newGame_click evs)) |}.
Proof.
  induction evs as [| ev evs IH]; intros p Hact Hevs.
  - simpl. rewrite app_nil_r. now destruct p.
  - simpl in Hevs. apply andb_true_iff in Hevs as [Hev Hevs].
    simpl run. unfold dispatch.
    destruct ev as [| x L | cb rs st resp].
    + rewrite newGame_sends, Hact, andb_false_r. simpl state_of.
      rewrite IH by assumption. simpl. now rewrite <- app_assoc.
    + rewrite gameBoard_click_idle by exact Hact. simpl state_of.
      now rewrite IH.
    + simpl in Hev. apply negb_true_iff in Hev.
      rewrite handler_not_success by exact Hev. simpl state_of.
      now rewrite IH.
Qed.

(** X11: while no game is active (before the first game and after a game
    is over) and as long as no request completes with status 200, nothing
    changes but the list of requests: clicks on the board are ignored, and
    every click on the button sends [GET /newgame] without a game
    identifier. *)
Theorem inactive_until_success :
  forall (evs : list event) (p : page),
    active_game (vars p) = false ->
    forallb (fun ev => negb (is_success ev)) evs = true ->
    vars (run evs p) = vars p
    /\ doc (run evs p) = doc p
    /\ sent (run evs p)
       = sent p ++ repeat (get_request (js"/newgame") newGame_callback)
                          (List.length (filter is_newGame_click evs)).
Proof.
  intros evs p Hact Hevs. rewrite (no_success_run evs p Hact Hevs).
  repeat split.
Qed.

Lemma inactive_until_success_witness :
  vars (run idle_events finished_2x2) = vars finished_2x2
  /\ doc (run idle_events finished_2x2) = doc finished_2x2
  /\ sent (run idle_events finished_2x2)
     = sent finished_2x2
       ++ repeat (get_request (js"/newgame") newGame_callback)
                 (List.length (filter is_newGame_click idle_events)).
Proof.
  apply (inactive_until_success idle_events finished_2x2);
    vm_compute; reflexivity.
Defined.

(** ** The requests of a whole run *)

Lemma starts_with_app prefix rest : starts_with prefix (prefix ++ rest) = true.
Proof.
  induction prefix as [| c prefix IH]; simpl; [reflexivity |].
  now rewrite N.eqb_refl, IH.
Qed.

Lemma dispatch_sent ev p :
  exists l,
    sent (dispatch ev p) = sent p ++ l
    /\ (List.length l <= 1)%nat
    /\ forallb known_request l = true.
Proof.
  unfold dispatch. destruct ev as [| x L | cb rs st resp].
  - simpl handler. rewrite newGame_sends. eexists. split; [reflexivity |].
    split; [simpl; lia |].
    apply forallb_forall. intros r [<- | []].
    unfold known_request, get_request.
    cbn [req_method req_async req_onreadystatechange req_url].
    now rewrite starts_with_app.
  - destruct (active_game (vars p)) eqn:Hact.
    + rewrite gameBoard_click_active, makeMove_sends by exact Hact.
      eexists. split; [reflexivity |].
      split; [simpl; lia |].
      apply forallb_forall. intros r [<- | []].
      unfold known_request, get_request.
      cbn [req_method req_async req_onreadystatechange req_url].
      now rewrite starts_with_app.
    + rewrite gameBoard_click_idle by exact Hact.
      exists []. simpl. rewrite app_nil_r. repeat split. lia.
  - exists []. rewrite app_nil_r. split; [| split; [simpl; lia | reflexivity]].
    destruct ((rs =? 4) && (st =? 200)) eqn:Hok.
    + destruct cb.
      * rewrite handler_newGame_success by exact Hok.
        apply (proj2 (renderBoard_frame resp (started resp p))).
      * rewrite handler_makeMove_success by exact Hok.
        apply (proj2 (renderBoard_frame resp (moved resp p))).
    + now rewrite handler_not_success.
Qed.

(** X12: the script only ever adds to the list of requests, at most one
    request per event, and every request is an asynchronous GET to
    [/newgame...] (with the start-game callback) or to
    [/makemove?game_id=...] (with the move callback). *)
Theorem requests_only_grow_and_are_known :
  forall (evs : list event) (p : page),
    exists l,
      sent (run evs p) = sent p ++ l
      /\ (List.length l <= List.length evs)%nat
      /\ forallb known_request l = true.
Proof.
  induction evs as [| ev evs IH]; intros p; simpl run.
  - exists []. rewrite app_nil_r. repeat split. simpl. lia.
  - destruct (dispatch_sent ev p) as (l1 & Hs1 & Hn1 & Hk1).
    destruct (IH (dispatch ev p)) as (l2 & Hs2 & Hn2 & Hk2).
    exists (l1 ++ l2). rewrite Hs2, Hs1, <- app_assoc.
    split; [reflexivity |]. split.
    + rewrite length_app. simpl. lia.
    + rewrite forallb_app. now rewrite Hk1, Hk2.
Qed.

(** X13: the button is not debounced: [n] clicks in a row send [n] equal
    requests and change nothing else. *)
Theorem newGame_clicks_not_debounced :
  forall (n : nat) (p : page),
    run (repeat NewGameButtonClick n) p =
    {| vars := vars p; doc := doc p;
       sent := sent p ++
         repeat
           (get_request
              (js"/newgame" ++
                 (if negb (JsString.eqb (game_id (vars p)) (js"0"))
                     && active_game (vars p)
                  then js"?game_id" ++ JsString.escape (game_id (vars p))
                  else js""))
              newGame_callback) n |}.
Proof.
  induction n as [| n IH]; intros p.
  - simpl. rewrite app_nil_r. now destruct p.
  - simpl repeat. simpl run. unfold dispatch at 1. simpl handler.
    rewrite newGame_sends. simpl state_of. rewrite IH.
    cbn [vars doc sent]. now rewrite <- app_assoc.
Qed.

(** X14: the prompt written by [makeMove] is not taken back: after a move
    whose request does not complete with status 200 the page keeps saying
    that the computer is thinking, with the column counted from 1, while
    the session and the canvas are as before the click.  The click is
    taken less than [2^53] pixels from the left edge, where the script's
    numbers are exact. *)
Theorem move_prompt_stays_after_failure :
  forall (p : page) (pageX offsetLeft readyState status : Z) (resp : response),
    active_game (vars p) = true ->
    (readyState =? 4) && (status =? 200) = false ->
    Z.abs (pageX - offsetLeft) < 9007199254740992 ->
    let p' := run [GameBoardClick pageX offsetLeft;
                   ReadyStateChange makeMove_callback readyState status resp] p in
    innerHTML (prompt (doc p'))
    = Some (js"Player move in column "
              ++ JsString.of_Z ((pageX - offsetLeft) / 60 + 1)
              ++ js". Computer thinking...")
    /\ vars p' = vars p
    /\ gameBoard (doc p') = gameBoard (doc p).
Proof.
  intros p x L rs st resp Hact Hfail _ p'. unfold p'. simpl run. unfold dispatch.
  rewrite handler_not_success by exact Hfail.
  rewrite gameBoard_click_active by exact Hact.
  rewrite makeMove_sends. cbn [state_of doc vars prompt gameBoard].
  split; [| split; reflexivity].
  apply innerHTML_plain.
  rewrite !plain_text_app, of_Z_plain. reflexivity.
Qed.

Lemma move_prompt_stays_after_failure_witness :
  innerHTML
    (prompt (doc (run [GameBoardClick 125 0;
                       ReadyStateChange makeMove_callback 4 500 move_reply]
                      playing_2x2)))
  = Some js"Player move in column 3. Computer thinking...".
Proof.
  exact (proj1 (move_prompt_stays_after_failure playing_2x2 125 0 4 500 move_reply
                  eq_refl eq_refl ltac:(simpl; lia))).
Defined.

(** ** A board sent as a string *)

Lemma grid_ext A (f g : Z -> Z -> A) c :
  (forall row col, f row col = g row col) ->
  forall rows i, grid f c rows i = grid g c rows i.
Proof.
  intros Hfg rows. unfold grid.
  induction rows as [| rows IH]; intros i; simpl; [reflexivity |].
  rewrite IH. f_equal. apply map_ext. intros col. apply Hfg.
Qed.

Lemma index_value_string s i :
  index_value (JStr s) i = index_value (JArr (map (fun c => JStr [c]) s)) i.
Proof.
  unfold index_value. simpl. unfold array_get.
  destruct (i <? 0); [reflexivity |].
  rewrite nth_error_map. now destruct (nth_error s (Z.to_nat i)).
Qed.

(** X15: a [Board] that arrives as a string is read character by character:
    it is painted exactly as the array of its one-character strings. *)
Theorem string_board_painted_like_array :
  forall (resp resp' : response) (s : jsstring) (p : page),
    Board resp = JStr s ->
    Board resp' = JArr (map (fun c => JStr [c]) s) ->
    bitmap (gameBoard (doc (state_of (renderBoard resp p))))
    = bitmap (gameBoard (doc (state_of (renderBoard resp' p))))
    /\ completes (renderBoard resp p) = true.
Proof.
  intros resp resp' s p HB HB'. split.
  - rewrite !renderBoard_bitmap, HB, HB'. simpl indexable. cbv iota.
    apply grid_ext. intros row col. unfold marker_of.
    now rewrite index_value_string.
  - assert (Hi : indexable (Board resp) = true) by now rewrite HB.
    destruct (renderBoard_paints_indexable resp Hi p) as (p' & Hrun & _).
    now rewrite Hrun.
Qed.

Lemma string_board_painted_like_array_witness :
  bitmap (gameBoard (doc (state_of (renderBoard string_reply playing_2x2))))
  = bitmap (gameBoard (doc (state_of (renderBoard move_reply playing_2x2)))).
Proof.
  exact (proj1 (string_board_painted_like_array string_reply move_reply
                  (js"XO X") playing_2x2 eq_refl eq_refl)).
Defined.

(** ** Who changes the session *)

(** X16: only a successful start-game response changes the identifier of
    the game or the dimensions of the board; clicks, failed responses and
    move responses leave the three as they are. *)
Theorem only_start_response_changes_game :
  forall (ev : event) (p : page),
    (forall readyState status resp,
        ev = ReadyStateChange newGame_callback readyState status resp ->
        (readyState =? 4) && (status =? 200) = false) ->
    game_id (vars (dispatch ev p)) = game_id (vars p)
    /\ num_rows (vars (dispatch ev p)) = num_rows (vars p)
    /\ num_columns (vars (dispatch ev p)) = num_columns (vars p).
Proof.
  intros ev p Hev. unfold dispatch.
  destruct ev as [| x L | cb rs st resp].
  - simpl handler. rewrite newGame_sends. repeat split.
  - destruct (active_game (vars p)) eqn:Hact.
    + rewrite gameBoard_click_active, makeMove_sends by exact Hact. repeat split.
    + rewrite gameBoard_click_idle by exact Hact. repeat split.
  - destruct cb.
    + rewrite (handler_not_success newGame_callback rs st resp p
                 (Hev rs st resp eq_refl)).
      repeat split.
    + destruct ((rs =? 4) && (st =? 200)) eqn:Hok.
      * rewrite handler_makeMove_success by exact Hok.
        rewrite (proj1 (renderBoard_frame resp (moved resp p))). repeat split.
      * rewrite handler_not_success by exact Hok. repeat split.
Qed.

Lemma only_start_response_changes_game_witness :
  game_id (vars (dispatch (ReadyStateChange makeMove_callback 4 200 final_reply)
                          playing_1x1)) = game_id (vars playing_1x1)
  /\ num_rows (vars (dispatch (ReadyStateChange makeMove_callback 4 200 final_reply)
                              playing_1x1)) = num_rows (vars playing_1x1)
  /\ num_columns (vars (dispatch (ReadyStateChange makeMove_callback 4 200 final_reply)
                                 playing_1x1)) = num_columns (vars playing_1x1).
Proof.
  apply (only_start_response_changes_game
           (ReadyStateChange makeMove_callback 4 200 final_reply) playing_1x1).
  intros rs st resp H. discriminate H.
Defined.

(** * The listeners and the [load] event *)

Lemma with_content_same w : with_content w (content w) = w.
Proof. now destruct w. Qed.

Lemma deliver_clicks_unloaded evs : forall w,
  newGameButton_listens w = false -> gameBoard_listeners w = O ->
  forallb is_click evs = true ->
  deliver_all (map PageEvent evs) w = w.
Proof.
  induction evs as [| ev evs IH]; intros w Hb Hg Hevs; simpl; [reflexivity |].
  simpl in Hevs. apply andb_true_iff in Hevs as [Hev Hevs].
  destruct ev as [| x L | cb rs st resp]; try discriminate Hev; simpl deliver.
  - rewrite Hb. now apply IH.
  - rewrite Hg. simpl. rewrite with_content_same. now apply IH.
Qed.

Lemma deliver_loaded evs : forall w,
  newGameButton_listens w = true -> gameBoard_listeners w = 1%nat ->
  deliver_all (map PageEvent evs) w = with_content w (run evs (content w)).
Proof.
  induction evs as [| ev evs IH]; intros w Hb Hg; cbn [map deliver_all run].
  - now rewrite with_content_same.
  - assert (Hstep : deliver (PageEvent ev) w
                    = with_content w (dispatch ev (content w))).
    { destruct ev as [| x L | cb rs st resp]; simpl deliver.
      - now rewrite Hb.
      - now rewrite Hg.
      - reflexivity. }
    rewrite Hstep, IH by assumption. reflexivity.
Qed.

(** X17: until the page has loaded no listener is installed: clicks on the
    button and on the canvas change nothing and send nothing. *)
Theorem clicks_before_load_are_lost :
  forall (evs : list event),
    forallb is_click evs = true ->
    deliver_all (map PageEvent evs) initial_window = initial_window.
Proof.
  intros evs Hevs. now apply deliver_clicks_unloaded.
Qed.

Lemma clicks_before_load_are_lost_witness :
  deliver_all (map PageEvent [NewGameButtonClick; GameBoardClick 125 0])
              initial_window = initial_window.
Proof.
  exact (clicks_before_load_are_lost [NewGameButtonClick; GameBoardClick 125 0]
           eq_refl).
Defined.

(** X18: once the page has loaded, [Loaded!] is logged once and every event
    is handled by exactly one listener: the page evolves as [run] says. *)
Theorem events_after_load :
  forall (evs : list event),
    content (deliver_all (Load :: map PageEvent evs) initial_window)
    = run evs initial_page
    /\ console (deliver_all (Load :: map PageEvent evs) initial_window)
       = [js"Loaded!"].
Proof.
  intros evs. simpl deliver_all.
  rewrite deliver_loaded by reflexivity. split; reflexivity.
Qed.
